(** * SleepingGiantRegressionAnalysis: the scenario/combination regression engine

    A shallow embedding of [streamlit_app.py] and the properties of its
    year resolution, column binding, subset counting, ANOVA table,
    coefficient ranking, batch scheduling and script runs.

    Conventions.
    - Python [int] is [nat] (indexes, counters) or [Z] (years); numpy
      [float64] is Rocq's primitive binary64 [float], so that [x / 0] is an
      infinity or a NaN and never an exception, as in numpy.
    - [str] is [string]; Python compares strings by code point, which on
      UTF-8 encoded text is the byte-wise order of [String.compare].
    - A Python exception is the left injection of a sum; a [dict] is an
      association list where its insertion order matters and a [gmap]
      where it does not.
    - Methods of [RegressionApp] are computations in a state and exception
      monad over the application object and the Streamlit session.
    - The numerical library (statsmodels' OLS, float formatting) is a
      parameter of the development, the class [Numerics].
    - A name the program looks up in a module that does not define it
      raises [AttributeError], as the lookup does in Python. *)

From Stdlib Require Import ZArith PrimFloat SpecFloat FloatOps DecimalString.
From stdpp Require Import base list strings sorting gmap.

Open Scope nat_scope.

(** * Part I: the program *)

(** ** Built-ins *)

Inductive exception :=
| KeyError (key : string)
| KeyError_not_in_index (requested missing : list string)
| IndexError
| TypeError
| ValueError (msg : string)
| AttributeError (name : string)
| FileNotFoundError (file : string)
| StreamlitAPIException
| RerunException.

Definition result (A : Type) : Type := exception + A.

#[global] Instance result_ret : MRet result := fun A a => inr a.

#[global] Instance result_bind : MBind result := fun A B k r =>
  match r with
  | inl e => inl e
  | inr a => k a
  end.

(** [xs[0]] (or [.iloc[0]]). *)
Definition first_item {A} (xs : list A) : result A :=
  match xs with
  | x :: _ => inr x
  | [] => inl IndexError
  end.

(** [str(n)] for a non-negative [int]. *)
Definition str_nat (n : nat) : string :=
  NilEmpty.string_of_uint (Nat.to_uint n).

(** [str(z)] for an [int]. *)
Definition str_Z (z : Z) : string := NilZero.string_of_int (Z.to_int z).

(** [sep.join(parts)]. *)
Definition join (sep : string) (parts : list string) : string :=
  String.concat sep parts.

(** [sorted(names)] on strings: the code point order is total and
    antisymmetric, so the result is the one sorted arrangement. *)
Definition sorted (names : list string) : list string :=
  merge_sort String.le names.

(** [d[key]] on a dictionary kept in insertion order. *)
Fixpoint dict_get {V} (d : list (string * V)) (key : string) : result V :=
  match d with
  | [] => inl (KeyError key)
  | (k, v) :: d' => if decide (k = key) then inr v else dict_get d' key
  end.

(** [float(z)]: the binary64 number nearest to [z], ties to even (one
    rounding; exact below 2^53). *)
Definition float_of_Z (z : Z) : float :=
  SF2Prim (binary_normalize prec emax z 0 false).

(** The labels of a list, each once, in the order of their first
    occurrence ([Index.unique()]). *)
Fixpoint unique (labels : list string) : list string :=
  match labels with
  | [] => []
  | l :: ls => l :: filter (fun l' => l' ≠ l) (unique ls)
  end.

(** ** itertools *)

Module itertools.

(** [itertools.combinations(pool, r)]: the [r]-length subsequences of
    [pool], chosen by position, in lexicographic order of the positions. *)
Fixpoint combinations {A} (pool : list A) (r : nat) {struct pool}
  : list (list A) :=
  match r, pool with
  | 0, _ => [[]]
  | S _, [] => []
  | S r', x :: rest =>
      (cons x <$> combinations rest r') ++ combinations rest r
  end.

(** [itertools.chain_from_iterable], as the program writes it. The
    module defines [chain], whose class method [from_iterable] flattens
    an iterable of iterables, and no attribute named
    [chain_from_iterable]: the attribute lookup raises, before the
    argument of the call is evaluated. *)
Definition chain_from_iterable {A} : result (list (list A) → list A) :=
  inl (AttributeError "chain_from_iterable").

End itertools.

Import itertools.

(** [range(lo, hi)] over the naturals. *)
Definition range (lo hi : nat) : list nat := seq lo (hi - lo).

(** [enumerate(xs, start)]. *)
Fixpoint enumerate {A} (start : nat) (xs : list A) : list (nat * A) :=
  match xs with
  | [] => []
  | x :: xs' => (start, x) :: enumerate (S start) xs'
  end.

(** ** The predefined scenarios *)

Definition Z_range (lo hi : Z) : list Z :=
  (fun i => (lo + Z.of_nat i)%Z) <$> seq 0 (Z.to_nat (hi - lo)).

Definition excluding (years : list Z) (excluded : list Z) : list Z :=
  filter (fun year => year ∉ excluded) years.

Definition predefined_years : list (string * list Z) :=
  [ ("2001-2023", Z_range 2001 2024);
    ("2005 - 2023 excluding 2009, 2016",
      excluding (Z_range 2005 2024) [2009; 2016]%Z);
    ("2001-2023 excluding 2020, 2021, 2022",
      excluding (Z_range 2001 2024) [2020; 2021; 2022]%Z);
    ("2001-2019", Z_range 2001 2020);
    ("2001-2023 excluding 2009, 2013, 2020, 2021, 2022",
      excluding (Z_range 2001 2024) [2009; 2013; 2020; 2021; 2022]%Z) ].

(** ** Data frames *)

Inductive cell :=
| CInt (z : Z)
| CFloat (x : float).

(** A sheet: the header and the rows under it. *)
Record DataFrame := {
  columns : list string;
  rows : list (list cell)
}.

(** [c == year] between a cell and an [int]. *)
Definition cell_eq_year (c : cell) (year : Z) : bool :=
  match c with
  | CInt z => Z.eqb z year
  | CFloat x => PrimFloat.eqb x (float_of_Z year)
  end.

(** One entry of [series.isin(years)]. *)
Definition isin (years : list Z) (c : cell) : bool :=
  existsb (cell_eq_year c) years.

(** [x.astype(float)] on one cell. *)
Definition astype_float (c : cell) : float :=
  match c with
  | CInt z => float_of_Z z
  | CFloat x => x
  end.

(** Position of a column label. *)
Definition get_loc (d : DataFrame) (label : string) : result nat :=
  match list_find (fun c => c = label) (columns d) with
  | Some (i, _) => inr i
  | None => inl (KeyError label)
  end.

(** [d[label]]: one column, top to bottom; a short row reads as NaN. *)
Definition getitem (d : DataFrame) (label : string) : result (list cell) :=
  match get_loc d label with
  | inl e => inl e
  | inr i => inr ((fun row => default (CFloat nan) (row !! i)) <$> rows d)
  end.

(** The columns under the given labels, in the order of the labels. *)
Fixpoint take_columns (d : DataFrame) (labels : list string)
  : result (list (list cell)) :=
  match labels with
  | [] => inr []
  | l :: ls =>
      match getitem d l with
      | inl e => inl e
      | inr col =>
          match take_columns d ls with
          | inl e => inl e
          | inr cols => inr (col :: cols)
          end
      end
  end.

(** [d[labels]]: the listed columns, in the order of [labels]. When
    some label is not a column, one [KeyError] is raised whose message
    names the missing labels, each once (all of the requested labels
    when none is a column). *)
Definition getitems (d : DataFrame) (labels : list string)
  : result (list (list cell)) :=
  match filter (fun label => label ∉ columns d) labels with
  | [] => take_columns d labels
  | (_ :: _) as missing => inl (KeyError_not_in_index labels (unique missing))
  end.

(** [d[d['Year'].isin(years)]]. *)
Definition select_years (d : DataFrame) (years : list Z) : result DataFrame :=
  match get_loc d "Year" with
  | inl e => inl e
  | inr i =>
      inr {| columns := columns d;
             rows := filter
               (fun row => isin years (default (CFloat nan) (row !! i)) = true)
               (rows d) |}
  end.

(** ** Fitted models *)

(** The first cell of a row of the coefficient table as [pd.read_html]
    gives it back: the term's name, or NaN when the printed name is one
    of the texts pandas reads as a missing value ('NA', 'nan', 'null',
    ...). *)
Inductive term :=
| Term (name : string)
| NaTerm.

#[global] Instance term_eq_dec : EqDecision term.
Proof. solve_decision. Defined.

(** One row of [model.summary().tables[1]] read back by [pd.read_html]
    and [reset_index]: the term, then coef, std err, t, P>|t| and the
    two confidence bounds. *)
Abbreviation coef_row := (term * list float)%type (only parsing).

(** What the program reads of a statsmodels results object.
    [summary_table] is
    [pd.read_html(model.summary().tables[1].as_html(), header=0,
    index_col=0)[0]], which the library may fail to build. *)
Record RegressionResults := {
  ssr : float;
  ess : float;
  df_resid : float;
  df_model : float;
  f_pvalue : float;
  rsquared : float;
  rsquared_adj : float;
  scale : float;
  nobs : float;
  summary_table : result (list coef_row)
}.

(** The library routines the program calls.
    [OLS_fit Y names X] is [sm.OLS(Y, sm.add_constant(X)).fit()] for the
    response [Y] and the predictor columns [X] named [names]; it returns
    a results object or raises. The others format floats. *)
Class Numerics := {
  OLS_fit : list float → list string → list (list float)
            → result RegressionResults;
  format_4f : float → string;
  str_float : float → string;
  pow_half : float → float;
  str_int_of_float : float → string
}.

(** A cell of a pandas frame built by the program: a float ([np.nan]
    for a missing entry) or a string. *)
Inductive value :=
| Number (x : float)
| Text (s : string).

(** [pd.DataFrame(dict, index=...)]: named columns over named rows. *)
Record Frame := {
  frame_columns : list (string * list value);
  frame_index : list string
}.

(** [frame.loc[row, col]]. *)
Definition loc (t : Frame) (row col : string) : option value :=
  match list_find (fun r => r = row) (frame_index t),
        list_find (fun c => c.1 = col) (frame_columns t) with
  | Some (i, _), Some (_, (_, column)) => column !! i
  | _, _ => None
  end.

(** The entries of one row, left to right ([frame.iterrows()]). *)
Definition frame_row (t : Frame) (i : nat) : list value :=
  (fun c => default (Number nan) (c.2 !! i)) <$> frame_columns t.

(** A missing entry of a frame. *)
Definition absent (v : option value) : Prop := v = Some (Number nan).

Definition str_value `{Numerics} (v : value) : string :=
  match v with
  | Number x => str_float x
  | Text s => s
  end.

(** One entry of a scenario's result list: the tuple
    [(output_df, years, y, model, anova_table, selected_x_vars, idx)]. *)
Record ModelResult := {
  output_df : list coef_row;
  selected_years : list Z;
  y_variable_name : string;
  model : RegressionResults;
  anova_table : Frame;
  selected_x_vars : list string;
  idx : nat
}.

(** ** Application and session state *)

Record RegressionApp := {
  df : option DataFrame;
  variables : list string;
  scenarios : list (string * list Z);
  num_combinations : nat;
  total_regressions : nat;
  completed_regressions : nat
}.

(** A cell handed to the Excel writer: a number, a text, or nothing. *)
Inductive xl_cell :=
| XlNumber (n : nat)
| XlText (s : string)
| XlBlank.

(** What Streamlit shows. [st_progress value] is a progress bar created
    by [st.progress(value)], [st_empty] a placeholder created by
    [st.empty()], and [st_progress_update completed total] the pair
    [progress_bar.progress(completed / total)] and [progress_text.text]
    with the two counters. *)
Inductive st_event :=
| st_title (msg : string)
| st_warning (msg : string)
| st_error (msg : string)
| st_subheader (msg : string)
| st_write (msg : string)
| st_write_list (items : list string)
| st_table
| st_tabs (titles : list string)
| st_dataframe (summary_df : list (list (option string)))
| st_download_button (label : string) (data : list (list xl_cell))
    (file_name : string)
| st_progress (value : nat)
| st_empty
| st_progress_update (completed total : nat).

(** The application object, the Streamlit session (the entries
    "results" and "download_links", each absent until it is set), the
    workbooks written (each by the lines of its Sheet1), and the calls
    of [run_single_regression] made so far (the response and the
    predictors of each, oldest first). *)
Record State := {
  self : RegressionApp;
  screen : list st_event;
  session_results : option (list (string * list ModelResult));
  download_links : option (gmap string string);
  files : gmap string (list (list xl_cell));
  regressions_run : list (string * list string)
}.

Definition M (A : Type) : Type := State → result A * State.

#[global] Instance M_ret : MRet M := fun A a s => (inr a, s).

#[global] Instance M_bind : MBind M := fun A B k m s =>
  match m s with
  | (inl e, s') => (inl e, s')
  | (inr a, s') => k a s'
  end.

Definition raise {A} (e : exception) : M A := fun s => (inl e, s).

Definition lift {A} (r : result A) : M A := fun s => (r, s).

Definition get_self : M RegressionApp := fun s => (inr (self s), s).

Definition modify (f : State → State) : M unit := fun s => (inr tt, f s).

Definition with_self (f : RegressionApp → RegressionApp) (s : State)
  : State :=
  {| self := f (self s); screen := screen s;
     session_results := session_results s;
     download_links := download_links s; files := files s;
     regressions_run := regressions_run s |}.

Definition show (e : st_event) : M unit :=
  modify (fun s =>
    {| self := self s; screen := screen s ++ [e];
       session_results := session_results s;
       download_links := download_links s; files := files s;
       regressions_run := regressions_run s |}).

(** [RegressionApp.__init__]. *)
Definition init : RegressionApp :=
  {| df := None; variables := []; scenarios := predefined_years;
     num_combinations := 0; total_regressions := 0;
     completed_regressions := 0 |}.

Definition initial_state
  (results : option (list (string * list ModelResult)))
  (links : option (gmap string string))
  (disk : gmap string (list (list xl_cell)))
  : State :=
  {| self := init; screen := []; session_results := results;
     download_links := links; files := disk; regressions_run := [] |}.

(** [self.df.columns[2:].tolist()]. *)
Definition predictor_columns (d : DataFrame) : list string :=
  drop 2 (columns d).

(** [self.df.columns[1]]. *)
Definition response_column (d : DataFrame) : result string :=
  match columns d !! 1 with
  | Some y => inr y
  | None => inl IndexError
  end.

(** ** Model fitting *)

(** [run_single_regression(df, y_var, x_vars)]. *)
Definition run_single_regression `{Numerics}
  (d : DataFrame) (y_var : string) (x_vars : list string)
  : result RegressionResults :=
  match getitem d y_var with
  | inl e => inl e
  | inr Y =>
      match getitems d x_vars with
      | inl e => inl e
      | inr X =>
          OLS_fit (astype_float <$> Y) x_vars
            ((fun column : list cell => astype_float <$> column) <$> X)
      end
  end.

(** [RegressionApp.format_regression_output]: the coefficient table
    read back from the model's summary, when the library builds one. *)
Definition format_regression_output (m : RegressionResults)
  : result (list coef_row) :=
  summary_table m.

(** [RegressionApp.calculate_anova_table]. The operands are numpy
    floats, so every division is an IEEE division. *)
Definition calculate_anova_table `{Numerics} (m : RegressionResults)
  : M Frame :=
  let sse := ssr m in
  let ssr := ess m in
  let sst := (ssr + sse)%float in
  let dfe := df_resid m in
  let dfr := df_model m in
  let dft := (dfr + dfe)%float in
  let mse := (sse / dfe)%float in
  let msr := (ssr / dfr)%float in
  let f_stat := (msr / mse)%float in
  let p_value := f_pvalue m in
  mret {|
    frame_columns :=
      [ ("df", [Number dfr; Number dfe; Number dft]);
        ("SS", [Number ssr; Number sse; Number sst]);
        ("MS", [Number msr; Number mse; Number nan]);
        ("F", [Number f_stat; Number nan; Number nan]);
        ("Significance F",
          [Text (format_4f p_value); Number nan; Number nan]) ];
    frame_index := ["Regression"; "Residual"; "Total"]
  |}.

(** ** Progress *)

(** [RegressionApp.update_progress], without the wall clock: with a
    total of 0 it returns at once; otherwise the bar is given
    completed / total, which Streamlit refuses above 1, and the text
    shows the two counters. *)
Definition update_progress : M unit :=
  app ← get_self;
  if decide (total_regressions app = 0) then mret tt
  else if decide (total_regressions app < completed_regressions app)
       then raise StreamlitAPIException
       else show (st_progress_update (completed_regressions app)
                    (total_regressions app)).

Definition count_completed (app : RegressionApp) : RegressionApp :=
  {| df := df app; variables := variables app; scenarios := scenarios app;
     num_combinations := num_combinations app;
     total_regressions := total_regressions app;
     completed_regressions := completed_regressions app + 1 |}.

(** [self.completed_regressions = n]. *)
Definition set_completed (n : nat) (app : RegressionApp) : RegressionApp :=
  {| df := df app; variables := variables app; scenarios := scenarios app;
     num_combinations := num_combinations app;
     total_regressions := total_regressions app;
     completed_regressions := n |}.

Definition log_regression (y_var : string) (x_vars : list string) : M unit :=
  modify (fun s =>
    {| self := self s; screen := screen s;
       session_results := session_results s;
       download_links := download_links s; files := files s;
       regressions_run := regressions_run s ++ [(y_var, x_vars)] |}).

(** [self.df] where the code subscripts it. *)
Definition the_df : M DataFrame :=
  app ← get_self;
  match df app with
  | Some d => mret d
  | None => raise TypeError
  end.

(** ** The scenario runner *)

(** The effective year filter: [if not years: years =
    predefined_years[scenario_name]]. *)
Definition resolve_years (scenario_name : string) (years : list Z)
  : result (list Z) :=
  match years with
  | [] => dict_get predefined_years scenario_name
  | _ :: _ => inr years
  end.

(** The statements of one turn of the loop of [process_scenario] up to
    the append: the fit, its coefficient table and its ANOVA table. *)
Definition fit_model `{Numerics}
  (years : list Z) (df_selected : DataFrame) (it : nat * list string)
  : M ModelResult :=
  let '(idx, selected_x_vars) := it in
  d ← the_df;
  y ← lift (response_column d);
  log_regression y selected_x_vars;;
  model ← lift (run_single_regression df_selected y selected_x_vars);
  output_df ← lift (format_regression_output model);
  anova_table ← calculate_anova_table model;
  mret {| output_df := output_df; selected_years := years;
          y_variable_name := y; model := model; anova_table := anova_table;
          selected_x_vars := selected_x_vars; idx := idx |}.

(** One turn of the loop of [process_scenario]. *)
Definition fit_subset `{Numerics}
  (years : list Z) (df_selected : DataFrame) (it : nat * list string)
  : M ModelResult :=
  r ← fit_model years df_selected it;
  modify (with_self count_completed);;
  update_progress;;
  mret r.

(** The loop of [process_scenario] over the subsets still to fit. *)
Fixpoint fit_loop `{Numerics}
  (years : list Z) (df_selected : DataFrame)
  (todo : list (nat * list string)) (scenario_results : list ModelResult)
  : M (list ModelResult) :=
  match todo with
  | [] => mret scenario_results
  | it :: todo' =>
      r ← fit_subset years df_selected it;
      fit_loop years df_selected todo' (scenario_results ++ [r])
  end.

(** The statements of [process_scenario] before its loop: the years,
    the selected rows, the predictor names, and the enumeration
    [list(itertools.chain_from_iterable(itertools.combinations(variables, r)
    for r in range(1, num_variables + 1)))] paired with its 1-based
    indexes. *)
Definition prepare_scenario (scenario_name : string) (years : list Z)
  : M (list Z * DataFrame * list (nat * list string)) :=
  years ← lift (resolve_years scenario_name years);
  d ← the_df;
  df_selected ← lift (select_years d years);
  let variables := predictor_columns d in
  let num_variables := length variables in
  chain_from_iterable ← lift chain_from_iterable;
  let combinations :=
    chain_from_iterable
      ((fun r => combinations variables r) <$> range 1 (num_variables + 1)) in
  mret (years, df_selected, enumerate 1 combinations).

(** [process_scenario(scenario_name, years)]. *)
Definition process_scenario `{Numerics}
  (scenario_name : string) (years : list Z)
  : M (string * list ModelResult) :=
  '(years, df_selected, todo) ← prepare_scenario scenario_name years;
  scenario_results ← fit_loop years df_selected todo [];
  mret (scenario_name, scenario_results).

(** ** The thread pool *)

Definition max_workers : nat := 4.

(** A submitted task: waiting in the executor's queue, running on a
    worker (with the locals of [process_scenario]: at the head of its
    loop, between the read and the write of
    [self.completed_regressions += 1] with the value read, or before
    [update_progress]), or finished with its return value or its
    exception. *)
Inductive future :=
| Pending (scenario_name : string) (years : list Z)
| Running (scenario_name : string) (years : list Z)
    (df_selected : DataFrame) (todo : list (nat * list string))
    (scenario_results : list ModelResult)
| Counting (scenario_name : string) (years : list Z)
    (df_selected : DataFrame) (todo : list (nat * list string))
    (scenario_results : list ModelResult) (seen : nat)
| Reporting (scenario_name : string) (years : list Z)
    (df_selected : DataFrame) (todo : list (nat * list string))
    (scenario_results : list ModelResult)
| Done (outcome : result (string * list ModelResult)).

Definition is_pending (f : future) : bool :=
  match f with Pending _ _ => true | _ => false end.

Definition is_running (f : future) : bool :=
  match f with
  | Running _ _ _ _ _ | Counting _ _ _ _ _ _ | Reporting _ _ _ _ _ => true
  | _ => false
  end.

Definition is_done (f : future) : bool :=
  match f with Done _ => true | _ => false end.

(** [executor.submit(process_scenario, name, years)] for each item of
    [self.scenarios], in its order. *)
Definition submit (scenarios : list (string * list Z)) : list future :=
  (fun sc => Pending sc.1 sc.2) <$> scenarios.

(** One step of a worker on its task: start it; fit the next subset
    and read the counter; write the counter; report the progress; or
    return. The increment of the shared counter is a read and a write
    between which other workers may step. An exception ends the task
    and is kept in the future. *)
Definition work `{Numerics} (f : future) (s : State) : future * State :=
  match f with
  | Pending scenario_name years =>
      match prepare_scenario scenario_name years s with
      | (inl e, s') => (Done (inl e), s')
      | (inr (years', df_selected, todo), s') =>
          (Running scenario_name years' df_selected todo [], s')
      end
  | Running scenario_name years df_selected [] scenario_results =>
      (Done (inr (scenario_name, scenario_results)), s)
  | Running scenario_name years df_selected (it :: todo) scenario_results =>
      match fit_model years df_selected it s with
      | (inl e, s') => (Done (inl e), s')
      | (inr r, s') =>
          (Counting scenario_name years df_selected todo
             (scenario_results ++ [r]) (completed_regressions (self s')), s')
      end
  | Counting scenario_name years df_selected todo scenario_results seen =>
      (Reporting scenario_name years df_selected todo scenario_results,
       with_self (set_completed (seen + 1)) s)
  | Reporting scenario_name years df_selected todo scenario_results =>
      match update_progress s with
      | (inl e, s') => (Done (inl e), s')
      | (inr _, s') =>
          (Running scenario_name years df_selected todo scenario_results, s')
      end
  | Done outcome => (Done outcome, s)
  end.

(** The executor: a queued task starts when it is the oldest one queued
    and fewer than [max_workers] tasks are running; any running task may
    take the next step. *)
Inductive pool_step `{Numerics}
  : list future * State → list future * State → Prop :=
| pool_start fs s i scenario_name years f' s' :
    fs !! i = Some (Pending scenario_name years) →
    Forall (fun f => is_pending f = false) (take i fs) →
    length (filter (fun f => is_running f = true) fs) < max_workers →
    work (Pending scenario_name years) s = (f', s') →
    pool_step (fs, s) (<[i := f']> fs, s')
| pool_work fs s i f f' s' :
    fs !! i = Some f →
    is_running f = true →
    work f s = (f', s') →
    pool_step (fs, s) (<[i := f']> fs, s').

(** Executions of the pool. *)
Inductive pool_run `{Numerics}
  : list future * State → list future * State → Prop :=
| pool_run_refl c : pool_run c c
| pool_run_step c1 c2 c3 :
    pool_step c1 c2 → pool_run c2 c3 → pool_run c1 c3.

(** A task run alone to its end: its outcome as the future keeps it. *)
Definition run_task `{Numerics} (scenario_name : string) (years : list Z)
  (s : State) : result (string * list ModelResult) * State :=
  process_scenario scenario_name years s.

(** The schedule that runs the tasks one after the other, in submission
    order: the outcomes of the futures, and the state after the pool has
    shut down. *)
Fixpoint run_in_turn `{Numerics} (scenarios : list (string * list Z))
  (s : State) : list (result (string * list ModelResult)) * State :=
  match scenarios with
  | [] => ([], s)
  | (scenario_name, years) :: rest =>
      let '(outcome, s') := run_task scenario_name years s in
      let '(outcomes, s'') := run_in_turn rest s' in
      (outcome :: outcomes, s'')
  end.

(** [for future in futures: all_results.append(future.result())]: the
    first exception in submission order is raised. *)
Fixpoint gather {A} (outcomes : list (result A)) : result (list A) :=
  match outcomes with
  | [] => inr []
  | inl e :: _ => inl e
  | inr a :: rest =>
      match gather rest with
      | inl e => inl e
      | inr all_results => inr (a :: all_results)
      end
  end.

(** ** Export *)

(** [str(item)] for the first cell of a row. *)
Definition str_term (t : term) : string :=
  match t with
  | Term name => name
  | NaTerm => "nan"
  end.

Definition str_row `{Numerics} (r : coef_row) : list string :=
  str_term r.1 :: (str_float <$> r.2).

(** One entry of [column == other]: NaN equals nothing. *)
Definition term_eqb (a b : term) : bool :=
  match a, b with
  | Term x, Term y => bool_decide (x = y)
  | _, _ => false
  end.

(** The names among the terms. *)
Definition names_of (terms : list term) : list string :=
  omap (fun t => match t with Term name => Some name | NaTerm => None end)
    terms.

(** [sorted(x_vars)] on the first cells: strings are sorted by code
    point; NaNs alone compare as equal and stay as they are; a string
    and a NaN cannot be compared. *)
Definition sorted_terms (terms : list term) : result (list term) :=
  let names := names_of terms in
  if decide (length names = length terms) then inr (Term <$> sorted names)
  else if decide (names = []) then inr terms
  else inl TypeError.

(** The coefficient block of one model in [prepare_downloads]: the
    rows after the header line. *)
Definition coefficient_rows `{Numerics} (idx : nat)
  (coeff_table : list coef_row) : result (list (list string)) :=
  match
    first_item
      (filter (fun r => term_eqb r.1 (Term "const") = true) coeff_table)
  with
  | inl e => inl e
  | inr constant_row =>
      let x_vars :=
        fst <$> filter (fun r => term_eqb r.1 (Term "const") = false)
                  coeff_table in
      match sorted_terms x_vars with
      | inl e => inl e
      | inr x_vars_sorted =>
          match
            gather
              ((fun iv : nat * term =>
                  match
                    first_item
                      (filter (fun r => term_eqb r.1 iv.2 = true) coeff_table)
                  with
                  | inl e => inl e
                  | inr row =>
                      inr (("S" +:+ str_nat idx +:+ "X" +:+ str_nat iv.1)
                           :: str_row row)
                  end) <$> enumerate 1 x_vars_sorted)
          with
          | inl e => inl e
          | inr rows =>
              inr ((("S" +:+ str_nat idx +:+ "Const") :: str_row constant_row)
                   :: rows)
          end
      end
  end.

(** The rows one model contributes to a scenario's sheet. *)
Definition summary_rows `{Numerics} (r : ModelResult)
  : result (list (list string)) :=
  let m := model r in
  let S := "S" +:+ str_nat (idx r) in
  match summary_table m with
  | inl e => inl e
  | inr coeff_table =>
      match coefficient_rows (idx r) coeff_table with
      | inl e => inl e
      | inr coefficients =>
          inr
            ([ [""; "Selected Years"; join ", " (str_Z <$> selected_years r)];
               [""; "SUMMARY OUTPUT"; ""];
               [""; "Regression Statistics"; ""];
               [""; "Multiple R"; format_4f (pow_half (rsquared m))];
               [S +:+ "R^2"; "R Square"; format_4f (rsquared m)];
               [""; "Adjusted R Square"; format_4f (rsquared_adj m)];
               [S +:+ "SE"; "Standard Error of the Regression";
                 format_4f (pow_half (scale m))];
               [""; "Observations"; str_int_of_float (nobs m)];
               [""; "ANOVA"; ""];
               [""; ""; "df"; "SS"; "MS"; "F"; "Significance F"] ]
             ++ imap (fun i index =>
                        "" :: index
                        :: (str_value <$> frame_row (anova_table r) i))
                  (frame_index (anova_table r))
             ++ [ [""; ""; "Coefficients"; "Standard Error"; "t Stat";
                   "P-value"; "Lower 95%"; "Upper 95%"] ]
             ++ coefficients)
      end
  end.

Definition summary_data `{Numerics} (scenario_results : list ModelResult)
  : result (list (list string)) :=
  match gather (summary_rows <$> scenario_results) with
  | inl e => inl e
  | inr blocks => inr (mjoin blocks)
  end.

(** [pd.DataFrame(summary_data)]: one line per list, the short ones
    padded with None up to the longest. *)
Definition DataFrame_of_rows (summary_data : list (list string))
  : list (list (option string)) :=
  let width :=
    max_list ((fun row : list string => length row) <$> summary_data) in
  (fun row : list string =>
     (Some <$> row) ++ replicate (width - length row) None)
  <$> summary_data.

(** [summary_df.to_excel(writer, sheet_name="Sheet1", index=False)]:
    the column labels 0, 1, ... on the first line, then the lines of
    the frame, a None cell left empty. *)
Definition to_excel (summary_df : list (list (option string)))
  : list (list xl_cell) :=
  let width :=
    max_list ((fun row : list (option string) => length row) <$> summary_df) in
  (XlNumber <$> seq 0 width)
  :: ((fun row : list (option string) =>
         (fun c => match c with Some s => XlText s | None => XlBlank end)
         <$> row) <$> summary_df).

(** [st.session_state["download_links"]]. *)
Definition the_download_links : M (gmap string string) :=
  fun s =>
    match download_links s with
    | Some links => (inr links, s)
    | None => (inl (KeyError "download_links"), s)
    end.

(** The body of the loop of [prepare_downloads] for one scenario. *)
Definition write_scenario `{Numerics}
  (sc : string * list ModelResult) : M unit :=
  let '(scenario_name, scenario_results) := sc in
  summary ← lift (summary_data scenario_results);
  let summary_df := DataFrame_of_rows summary in
  let excel_filename := scenario_name +:+ ".xlsx" in
  modify (fun s =>
    {| self := self s; screen := screen s;
       session_results := session_results s;
       download_links := download_links s;
       files := <[excel_filename := to_excel summary_df]> (files s);
       regressions_run := regressions_run s |});;
  links ← the_download_links;
  modify (fun s =>
    {| self := self s; screen := screen s;
       session_results := session_results s;
       download_links := Some (<[scenario_name := excel_filename]> links);
       files := files s;
       regressions_run := regressions_run s |}).

Fixpoint for_each {A} (body : A → M unit) (xs : list A) : M unit :=
  match xs with
  | [] => mret tt
  | x :: xs' => body x;; for_each body xs'
  end.

(** [RegressionApp.prepare_downloads]. *)
Definition prepare_downloads `{Numerics}
  (all_results : list (string * list ModelResult)) : M unit :=
  modify (fun s =>
    {| self := self s; screen := screen s;
       session_results := session_results s;
       download_links := Some ∅; files := files s;
       regressions_run := regressions_run s |});;
  for_each write_scenario all_results.

(** [RegressionApp.show_combined_results_window]:
    [st.experimental_rerun()] stops the script run. *)
Definition show_combined_results_window
  (all_results : list (string * list ModelResult)) : M unit :=
  modify (fun s =>
    {| self := self s; screen := screen s;
       session_results := Some all_results;
       download_links := download_links s; files := files s;
       regressions_run := regressions_run s |});;
  raise RerunException.

(** ** The batch *)

(** [RegressionApp.run_regression_scenarios], the pool run by the
    schedule [run_in_turn]. The start time is not kept: the model has
    no wall clock. *)
Definition run_regression_scenarios `{Numerics} : M unit :=
  app ← get_self;
  match df app with
  | None => show (st_warning "Please upload an Excel file first.")
  | Some d =>
      if decide ("Year" ∈ columns d) then
        show (st_progress 0);;
        show st_empty;;
        outcomes ← (fun s =>
          let '(outcomes, s') := run_in_turn (scenarios app) s in
          (inr outcomes, s'));
        all_results ← lift (gather outcomes);
        prepare_downloads all_results;;
        show_combined_results_window all_results
      else
        show (st_error "The 'Year' column is missing from the uploaded file.")
  end.

(** ** The pages *)

(** [RegressionApp.choose_file], given what the uploader returns. *)
Definition choose_file (file : option DataFrame) : M unit :=
  match file with
  | Some d =>
      modify (with_self (fun app =>
        {| df := Some d; variables := predictor_columns d;
           scenarios := scenarios app;
           num_combinations := num_combinations app;
           total_regressions := total_regressions app;
           completed_regressions := completed_regressions app |}));;
      show (st_write "### Columns in the uploaded file:");;
      show (st_write_list (columns d))
  | None => mret tt
  end.

(** [RegressionApp.show_variable_selection]. *)
Definition show_variable_selection : M unit :=
  app ← get_self;
  match df app with
  | None => show (st_warning "Please upload an Excel file first.")
  | Some d =>
      let variables := predictor_columns d in
      let num_combinations :=
        sum_list ((fun i => length (combinations variables i))
                  <$> range 1 (length variables + 1)) in
      let total_regressions := 5 * num_combinations in
      modify (with_self (fun app =>
        {| df := df app; variables := variables;
           scenarios := scenarios app;
           num_combinations := num_combinations;
           total_regressions := total_regressions;
           completed_regressions := completed_regressions app |}));;
      show (st_subheader (str_nat (length variables) +:+ " variables found."));;
      show (st_subheader
        ("Regression will create " +:+ str_nat num_combinations
         +:+ " variable combinations (Total Regressions: "
         +:+ str_nat total_regressions +:+ ")."));;
      show (st_write "### Variables:");;
      for_each (fun var => show (st_write ("- " +:+ var))) variables
  end.

(** [RegressionApp.display_scenarios]: a table of the scenarios. *)
Definition display_scenarios : M unit := show st_table.

(** [st.tabs(tab_titles)]: Streamlit refuses an empty list of titles. *)
Definition tabs (tab_titles : list string) : M unit :=
  match tab_titles with
  | [] => raise StreamlitAPIException
  | _ :: _ => show (st_tabs tab_titles)
  end.

(** [open(excel_filename, 'rb').read()]. *)
Definition read_file (excel_filename : string) : M (list (list xl_cell)) :=
  fun s =>
    match files s !! excel_filename with
    | Some data => (inr data, s)
    | None => (inl (FileNotFoundError excel_filename), s)
    end.

(** The body of the loop of [display_results_page] for one tab. *)
Definition display_tab `{Numerics} (sc : string * list ModelResult)
  : M unit :=
  let '(scenario_name, scenario_results) := sc in
  summary ← lift (summary_data scenario_results);
  show (st_dataframe (DataFrame_of_rows summary));;
  links ← the_download_links;
  match links !! scenario_name with
  | Some excel_filename =>
      data ← read_file excel_filename;
      show (st_download_button
              ("Download " +:+ scenario_name +:+ " as Excel")
              data excel_filename)
  | None => mret tt
  end.

(** [RegressionApp.display_results_page]: one tab per scenario, for
    the first five. *)
Definition display_results_page `{Numerics} : M unit :=
  s ← (fun s => (inr s, s));
  match session_results s with
  | None => show (st_write
      "No results to display. Please run the regression scenarios first.")
  | Some all_results =>
      let num_tabs := min 5 (length all_results) in
      let tab_titles :=
        (fun sc : string * list ModelResult => "Scenario: " +:+ sc.1)
        <$> take num_tabs all_results in
      tabs tab_titles;;
      for_each display_tab (take num_tabs all_results)
  end.

(** [main()], one run of the script: [file] is what the uploader holds
    and [button] whether the run button was pressed. The session part
    of the state is what Streamlit keeps between runs; the application
    object is built anew. The program never stores a progress text in
    the session, so that branch of the script is not taken. *)
Definition main `{Numerics} (file : option DataFrame) (button : bool)
  : M unit :=
  modify (with_self (fun _ => init));;
  show (st_title "SG2024 Regression Analysis Crazy-Fast Tool");;
  show (st_write "### Upload Xlsx Source File:");;
  choose_file file;;
  (if button then run_regression_scenarios else mret tt);;
  show (st_write "### Existing Scenarios:");;
  display_scenarios;;
  show (st_write "### Variables:");;
  show_variable_selection;;
  s ← (fun s => (inr s, s));
  match session_results s with
  | Some _ => display_results_page
  | None => mret tt
  end.

(** ** Code outside the batch path *)



(** [all_years] of [display_scenarios]. *)
Definition all_years : list Z := Z_range 2001 2024.

(** The row [display_scenarios] stores for a scenario:
    [['•' if year in years else '' for year in all_years]]. *)
Definition scenario_marks (years : list Z) : list string :=
  (fun year => if decide (year ∈ years) then "•" else "") <$> all_years.

(** [scenario_df] of [display_scenarios], one row per scenario, before
    it is transposed for the table. *)
Definition scenario_df (scenarios : list (string * list Z))
  : list (string * list string) :=
  (fun sc => (sc.1, scenario_marks sc.2)) <$> scenarios.

(** * Part II: vocabulary of the properties *)

(** Position of a name in the predictor list (the list has no repeats
    wherever this is used). *)
Fixpoint index_of `{EqDecision A} (x : A) (variables : list A) : nat :=
  match variables with
  | [] => 0
  | y :: rest => if decide (x = y) then 0 else S (index_of x rest)
  end.

Definition positions `{EqDecision A} (variables : list A) (subset : list A)
  : list nat :=
  (fun x => index_of x variables) <$> subset.

(** Strict lexicographic order on position tuples. *)
Fixpoint lex_lt (a b : list nat) : Prop :=
  match a, b with
  | [], [] => False
  | [], _ :: _ => True
  | _ :: _, [] => False
  | i :: a', j :: b' => i < j ∨ (i = j ∧ lex_lt a' b')
  end.

(** Number of combinations of each size, summed over the sizes. *)
Definition count_sizes {A} (pool : list A) (sizes : list nat) : nat :=
  sum_list ((fun r => length (combinations pool r)) <$> sizes).

(** The relations of an ANOVA table: totals are the sums of the two
    rows above, mean squares are sums of squares over degrees of
    freedom, F is the ratio of the mean squares, and the cells without
    meaning are missing. All arithmetic is binary64 arithmetic. *)
Definition anova_invariant (t : Frame) : Prop :=
  ∃ dfr dfe ssr sse : float,
    let msr := (ssr / dfr)%float in
    let mse := (sse / dfe)%float in
    loc t "Regression" "df" = Some (Number dfr)
    ∧ loc t "Residual" "df" = Some (Number dfe)
    ∧ loc t "Total" "df" = Some (Number (dfr + dfe)%float)
    ∧ loc t "Regression" "SS" = Some (Number ssr)
    ∧ loc t "Residual" "SS" = Some (Number sse)
    ∧ loc t "Total" "SS" = Some (Number (ssr + sse)%float)
    ∧ loc t "Regression" "MS" = Some (Number msr)
    ∧ loc t "Residual" "MS" = Some (Number mse)
    ∧ loc t "Regression" "F" = Some (Number (msr / mse)%float)
    ∧ absent (loc t "Total" "MS")
    ∧ absent (loc t "Total" "F")
    ∧ absent (loc t "Total" "Significance F")
    ∧ absent (loc t "Residual" "F")
    ∧ absent (loc t "Residual" "Significance F").

(** ** What a task raises, as a function of the sheet alone *)

(** The exception of [process_scenario]: that of the year lookup, of
    the row selection, or of the enumeration. *)
Definition scenario_error (sheet : option DataFrame)
  (scenario_name : string) (years : list Z) : exception :=
  match resolve_years scenario_name years with
  | inl e => e
  | inr years' =>
      match sheet with
      | None => TypeError
      | Some d =>
          match select_years d years' with
          | inl e => e
          | inr _ => AttributeError "chain_from_iterable"
          end
      end
  end.

(** The error messages on the screen, oldest first. *)
Definition errors_shown (scr : list st_event) : list string :=
  omap (fun e => match e with st_error msg => Some msg | _ => None end) scr.

(** A step that runs no regression, completes none, writes nothing and
    shows the error messages [new_errors]. *)
Definition quiet (new_errors : list string) (s s' : State) : Prop :=
  completed_regressions (self s') = completed_regressions (self s)
  ∧ df (self s') = df (self s)
  ∧ regressions_run s' = regressions_run s
  ∧ files s' = files s
  ∧ download_links s' = download_links s
  ∧ session_results s' = session_results s
  ∧ errors_shown (screen s') = errors_shown (screen s) ++ new_errors.




(** ** Schedules of the pool *)

(** The step of the pool on task [i], when the executor allows it. *)
Definition pool_pick `{Numerics} (i : nat) (c : list future * State)
  : option (list future * State) :=
  let '(fs, s) := c in
  match fs !! i with
  | None => None
  | Some f =>
      if is_running f
         || (is_pending f
             && forallb (fun g => negb (is_pending g)) (take i fs)
             && (length (filter (fun g => is_running g = true) fs)
                 <? max_workers))
      then let '(f', s') := work f s in Some (<[i := f']> fs, s')
      else None
  end.

(** The pool driven by a schedule: the tasks that step, in order. *)
Fixpoint run_schedule `{Numerics} (schedule : list nat)
  (c : list future * State) : option (list future * State) :=
  match schedule with
  | [] => Some c
  | i :: rest =>
      match pool_pick i c with
      | Some c' => run_schedule rest c'
      | None => None
      end
  end.

(** Futures of a batch whose tasks have not got past their first
    statements: each is still queued, or has finished with the
    exception of its scenario. *)
Definition queued_or_raised (sheet : option DataFrame)
  (scenarios : list (string * list Z)) (fs : list future) : Prop :=
  Forall2
    (fun sc f =>
       f = Pending sc.1 sc.2
       ∨ f = Done (inl (scenario_error sheet sc.1 sc.2)))
    scenarios fs.

(** ** Script runs *)

(** The warnings on the screen, oldest first. *)
Definition warnings_shown (scr : list st_event) : list string :=
  omap (fun e => match e with st_warning msg => Some msg | _ => None end) scr.

(** What the results page and the progress bar have shown: the tab
    rows, the summary sheets, the download buttons and the progress
    updates on the screen. *)
Definition results_shown (scr : list st_event) : list st_event :=
  omap
    (fun e =>
       match e with
       | st_tabs _ | st_dataframe _ | st_download_button _ _ _
       | st_progress_update _ _ => Some e
       | _ => None
       end) scr.

(** The state of a script run once [choose_file] has read the sheet
    [d]: a new application object that holds it, and the title, the
    heading and the column list on the screen. *)
Definition uploaded (d : DataFrame) (s : State) : State :=
  {| self := {| df := Some d; variables := predictor_columns d;
                scenarios := predefined_years;
                num_combinations := 0; total_regressions := 0;
                completed_regressions := 0 |};
     screen :=
       screen s
       ++ [st_title "SG2024 Regression Analysis Crazy-Fast Tool";
           st_write "### Upload Xlsx Source File:";
           st_write "### Columns in the uploaded file:";
           st_write_list (columns d)];
     session_results := session_results s;
     download_links := download_links s; files := files s;
     regressions_run := regressions_run s |}.

(** The state once the batch has created its progress bar and the
    placeholder of its progress text. *)
Definition batch_started (s : State) : State :=
  {| self := self s;
     screen := screen s ++ [st_progress 0; st_empty];
     session_results := session_results s;
     download_links := download_links s; files := files s;
     regressions_run := regressions_run s |}.

(** What one script run hands to the next while the session stores no
    results: the completed count, the links, the files, the calls made
    and what the results page and the progress bar have shown. *)
Definition session_view (s : State) :=
  match session_results s with
  | None =>
      Some (completed_regressions (self s), download_links s, files s,
            regressions_run s, results_shown (screen s))
  | Some _ => None
  end.

(** The session after a sequence of script runs, each with what the
    uploader holds and whether the button was pressed; a run that
    raises ends there and the session goes on from what it left. *)
Definition script_runs `{Numerics} (runs : list (option DataFrame * bool))
  (s : State) : State :=
  foldl (fun s run => (main run.1 run.2 s).2) s runs.

(** ** Sample inputs *)

(** A results object with the given degrees of freedom and sums of
    squares, and a coefficient table naming the intercept and the
    predictors. *)
Definition sample_results (names : list string)
  (dfr dfe ess_ ssr_ : float) : RegressionResults :=
  {| ssr := ssr_; ess := ess_; df_resid := dfe; df_model := dfr;
     f_pvalue := 0.5; rsquared := (ess_ / (ess_ + ssr_))%float;
     rsquared_adj := 0.5; scale := (ssr_ / dfe)%float;
     nobs := (dfr + dfe + 1)%float;
     summary_table :=
       inr ((Term "const", []) :: ((fun x => (Term x, [])) <$> names)) |}.

Definition sample_format (x : float) : string :=
  if is_nan x then "nan"
  else if is_infinity x then "inf"
  else "finite".

(** An instance of the library class for the examples. No run of the
    program reaches a fit, so its [OLS_fit] is never called there; it
    returns, for every design, a results object with the degrees of
    freedom of a full-rank fit with an intercept and NaN for the
    statistics that depend on the data. *)
Definition sample_numerics : Numerics :=
  {| OLS_fit Y names X :=
       inr (sample_results names
              (float_of_Z (Z.of_nat (length names)))
              (float_of_Z (Z.of_nat (length Y) - Z.of_nat (length names) - 1))
              nan nan);
     format_4f := sample_format;
     str_float := sample_format;
     pow_half := sqrt;
     str_int_of_float := sample_format |}.

(** A sheet with the columns Year, Y, A and B and one row for each of
    the given years. *)
Definition sample_sheet (years : list Z) : DataFrame :=
  {| columns := ["Year"; "Y"; "A"; "B"];
     rows := (fun y => [CInt y; CFloat 1.5; CInt (y - 2000); CFloat 0.25])
             <$> years |}.

(** A sheet whose Year column is the third. *)
Definition year_third_sheet : DataFrame :=
  {| columns := ["ID"; "Y"; "Year"; "A"];
     rows := [[CInt 1; CFloat 1.5; CInt 2001; CFloat 0.5];
              [CInt 2; CFloat 2.5; CInt 2002; CFloat 0.25]] |}.

Definition empty_session : State := initial_state None None ∅.

Definition loaded (d : DataFrame) : State :=
  with_self (fun app =>
    {| df := Some d; variables := predictor_columns d;
       scenarios := scenarios app;
       num_combinations := num_combinations app;
       total_regressions := total_regressions app;
       completed_regressions := completed_regressions app |})
    empty_session.

(** * Part III: properties *)

(** ** The model at a glance *)

Example combinations_ABCD_2 :
  combinations ["A"; "B"; "C"; "D"] 2
  = [["A"; "B"]; ["A"; "C"]; ["A"; "D"]; ["B"; "C"]; ["B"; "D"];
     ["C"; "D"]].
Proof. reflexivity. Qed.

Example predefined_years_sizes :
  (fun sc => length sc.2) <$> predefined_years = [23; 17; 20; 19; 18].
Proof. vm_compute. reflexivity. Qed.

Example sorted_is_case_sensitive :
  sorted ["beta"; "Zeta"; "Alpha"; "alpha"]
  = ["Alpha"; "Zeta"; "alpha"; "beta"].
Proof. vm_compute. reflexivity. Qed.

Example select_years_sample :
  select_years (sample_sheet [1999; 2001; 2005; 2030]%Z) (Z_range 2001 2020)
  = inr (sample_sheet [2001; 2005]%Z).
Proof. vm_compute. reflexivity. Qed.

Example float_of_Z_sample :
  float_of_Z 2001 = 2001%float
  ∧ float_of_Z (-3) = (-3)%float
  ∧ float_of_Z (2 ^ 53 + 1) = 9007199254740992%float
  ∧ float_of_Z (2 ^ 53 + 3) = 9007199254740996%float.
Proof. vm_compute. done. Qed.

Example astype_float_sample :
  astype_float <$> [CInt 3; CFloat 0.25; CInt (-2)]
  = [3%float; 0.25%float; (-2)%float].
Proof. vm_compute. reflexivity. Qed.

Example getitems_sample :
  getitems (sample_sheet [2001]%Z) ["B"; "Q"; "A"; "P"; "Q"]
  = inl (KeyError_not_in_index ["B"; "Q"; "A"; "P"; "Q"] ["Q"; "P"]).
Proof. vm_compute. reflexivity. Qed.

Example process_scenario_sample :
  process_scenario (H := sample_numerics) "2001-2019" []
    (loaded (sample_sheet (Z_range 2001 2024)))
  = (inl (AttributeError "chain_from_iterable"),
     loaded (sample_sheet (Z_range 2001 2024))).
Proof. vm_compute. reflexivity. Qed.

(** ** Combinations *)

Section combinations_facts.
Context {A : Type}.
Implicit Types (pool : list A) (r : nat) (s : list A).

Lemma combinations_0 pool : combinations pool 0 = [[]].
Proof. by destruct pool. Qed.

Lemma combinations_cons_S x pool r :
  combinations (x :: pool) (S r)
  = (cons x <$> combinations pool r) ++ combinations pool (S r).
Proof. done. Qed.

Lemma combinations_length_elem pool r s :
  s ∈ combinations pool r → length s = r.
Proof.
  revert r s. induction pool as [|x pool IH]; intros [|r] s.
  - intros ->%list_elem_of_singleton. done.
  - by intros ?%elem_of_nil.
  - rewrite combinations_0. intros ->%list_elem_of_singleton. done.
  - rewrite combinations_cons_S, elem_of_app, list_elem_of_fmap.
    intros [(t & -> & Ht)|Hs]; [|by apply IH].
    simpl. f_equal. by apply IH.
Qed.

Lemma combinations_too_long pool r :
  length pool < r → combinations pool r = [].
Proof.
  revert r. induction pool as [|x pool IH]; intros [|r] Hlt;
    simpl in *; try lia; [done|].
  rewrite !IH by lia. done.
Qed.

Lemma combinations_sublist pool r s :
  s ∈ combinations pool r → s `sublist_of` pool.
Proof.
  revert r s. induction pool as [|x pool IH]; intros [|r] s.
  - intros ->%list_elem_of_singleton. constructor.
  - by intros ?%elem_of_nil.
  - rewrite combinations_0. intros ->%list_elem_of_singleton.
    apply sublist_nil_l.
  - rewrite combinations_cons_S, elem_of_app, list_elem_of_fmap.
    intros [(t & -> & Ht)|Hs].
    + apply sublist_skip. by eapply IH.
    + apply sublist_cons. by eapply IH.
Qed.

Lemma sublist_combinations pool s :
  s `sublist_of` pool → s ∈ combinations pool (length s).
Proof.
  induction 1 as [|x s pool _ IH|x s pool _ IH]; simpl.
  - apply list_elem_of_singleton. done.
  - apply elem_of_app. left. apply list_elem_of_fmap. eauto.
  - destruct s as [|y s]; simpl in *.
    + apply list_elem_of_singleton. done.
    + apply elem_of_app. by right.
Qed.

Lemma combinations_1 pool : combinations pool 1 = (fun x => [x]) <$> pool.
Proof.
  induction pool as [|x pool IH]; [done|].
  rewrite combinations_cons_S, combinations_0, IH. done.
Qed.

Lemma count_sizes_cons pool r sizes :
  count_sizes pool (r :: sizes)
  = length (combinations pool r) + count_sizes pool sizes.
Proof. done. Qed.

Lemma count_sizes_nil_S k n : count_sizes (@nil A) (seq (S k) n) = 0.
Proof.
  revert k. induction n as [|n IH]; intros k; [done|].
  rewrite <- cons_seq, count_sizes_cons, IH. done.
Qed.

Lemma count_sizes_cons_shift x pool k n :
  count_sizes (x :: pool) (seq (S k) n)
  = count_sizes pool (seq k n) + count_sizes pool (seq (S k) n).
Proof.
  revert k. induction n as [|n IH]; intros k; [done|].
  rewrite <- !cons_seq, !count_sizes_cons, IH.
  rewrite combinations_cons_S, length_app, length_fmap. lia.
Qed.

Lemma count_sizes_all pool n :
  length pool ≤ n → count_sizes pool (seq 0 (S n)) = 2 ^ length pool.
Proof.
  revert n. induction pool as [|x pool IH]; intros n Hn.
  - rewrite <- cons_seq, count_sizes_cons, count_sizes_nil_S. done.
  - destruct n as [|n]; simpl in Hn; [lia|].
    rewrite <- cons_seq, count_sizes_cons, count_sizes_cons_shift.
    pose proof (IH n ltac:(lia)) as IH1.
    pose proof (IH (S n) ltac:(lia)) as IH2.
    rewrite <- cons_seq, count_sizes_cons, combinations_0 in IH2.
    rewrite IH1. simpl in *. lia.
Qed.

End combinations_facts.

Lemma StronglySorted_impl_in {B} (R R' : relation B) (l : list B) :
  StronglySorted R l →
  (∀ a b, a ∈ l → b ∈ l → R a b → R' a b) →
  StronglySorted R' l.
Proof.
  induction 1 as [|a l Hl IH Hall]; intros Himpl; [constructor|].
  constructor.
  - apply IH. intros b c Hb Hc. apply Himpl; by right.
  - rewrite Forall_forall in Hall |- *. intros b Hb.
    apply Himpl; [by left|by right|auto].
Qed.

Lemma StronglySorted_irrefl_NoDup {B} (R : relation B) (l : list B) :
  (∀ a, ¬ R a a) → StronglySorted R l → NoDup l.
Proof.
  intros Hirr. induction 1 as [|a l Hl IH Hall]; constructor; [|done].
  intros Ha. rewrite Forall_forall in Hall. by eapply Hirr, Hall.
Qed.

Section enumeration_order.
Context `{EqDecision A}.
Implicit Types (pool : list A) (r : nat) (s t : list A).

Lemma lex_lt_irrefl a : ¬ lex_lt a a.
Proof. induction a as [|i a IH]; simpl; [tauto|]. intros [?|[_ ?]]; [lia|tauto]. Qed.

Lemma lex_lt_fmap_S a b : lex_lt a b → lex_lt (S <$> a) (S <$> b).
Proof.
  revert b. induction a as [|i a IH]; intros [|j b]; simpl; try tauto.
  intros [?|[-> ?]]; [left; lia|right; auto].
Qed.

Lemma positions_cons_fresh x pool s :
  x ∉ s → positions (x :: pool) s = S <$> positions pool s.
Proof.
  unfold positions. induction s as [|y s IH]; [done|].
  rewrite not_elem_of_cons. intros [Hne Hs]. cbn [fmap list_fmap index_of].
  rewrite decide_False by done. f_equal. by apply IH.
Qed.

Lemma positions_cons_head x pool s :
  x ∉ s → positions (x :: pool) (x :: s) = 0 :: (S <$> positions pool s).
Proof.
  intros Hs. rewrite <- (positions_cons_fresh x pool s) by done.
  unfold positions. cbn [fmap list_fmap index_of].
  by rewrite decide_True.
Qed.

Lemma sublist_not_elem_of x s pool : s `sublist_of` pool → x ∉ pool → x ∉ s.
Proof. intros Hs Hx Hin. apply Hx. by eapply elem_of_sublist. Qed.

(** Within one size, the combinations come in lexicographic order of
    the positions of their members. *)
Lemma combinations_lex_sorted pool r :
  NoDup pool →
  StronglySorted
    (fun s t => lex_lt (positions pool s) (positions pool t))
    (combinations pool r).
Proof.
  intros Hnd. revert r.
  induction Hnd as [|x pool Hx Hnd IH]; intros [|r].
  - repeat constructor.
  - constructor.
  - rewrite combinations_0. repeat constructor.
  - rewrite combinations_cons_S. apply StronglySorted_app_2.
    + intros s t (s' & -> & Hs')%list_elem_of_fmap Ht.
      assert (x ∉ s') as Hxs.
      { eapply sublist_not_elem_of; [by eapply combinations_sublist|done]. }
      assert (x ∉ t) as Hxt.
      { eapply sublist_not_elem_of; [by eapply combinations_sublist|done]. }
      rewrite positions_cons_head, (positions_cons_fresh x pool t) by done.
      apply combinations_length_elem in Ht.
      destruct t as [|y t]; [done|]. simpl. left. lia.
    + assert (StronglySorted
                (fun s t => lex_lt (positions (x :: pool) (x :: s))
                                   (positions (x :: pool) (x :: t)))
                (combinations pool r)) as Hs.
      { specialize (IH r).
        assert (Forall (fun s => x ∉ s) (combinations pool r)) as Hfresh.
        { apply Forall_forall. intros s Hs.
          eapply sublist_not_elem_of; [by eapply combinations_sublist|done]. }
        induction IH as [|s l Hl IHl Hall]; [constructor|].
        apply Forall_cons in Hfresh as [Hxs Hfresh].
        constructor; [by apply IHl|].
        rewrite Forall_forall in Hall, Hfresh |- *. intros t Ht.
        rewrite !positions_cons_head by auto.
        simpl. right. split; [done|]. apply lex_lt_fmap_S. auto. }
      clear IH. induction Hs as [|s l Hl IHl Hall]; [constructor|].
      cbn [fmap list_fmap]. constructor; [done|].
      apply Forall_fmap. done.
    + specialize (IH (S r)).
      assert (Forall (fun s => x ∉ s) (combinations pool (S r))) as Hfresh.
      { apply Forall_forall. intros s Hs.
        eapply sublist_not_elem_of; [by eapply combinations_sublist|done]. }
      induction IH as [|s l Hl IHl Hall]; [constructor|].
      apply Forall_cons in Hfresh as [Hxs Hfresh].
      constructor; [by apply IHl|].
      rewrite Forall_forall in Hall, Hfresh |- *. intros t Ht.
      rewrite !(positions_cons_fresh x) by auto.
      apply lex_lt_fmap_S. auto.
Qed.

End enumeration_order.

Lemma range_1 n : range 1 (n + 1) = seq 1 n.
Proof. unfold range. f_equal. lia. Qed.

(** The sizes of the groups add up to the number of non-empty subsets. *)
Lemma combinations_count {A} (variables : list A) :
  sum_list ((fun i => length (combinations variables i))
            <$> range 1 (length variables + 1))
  = 2 ^ length variables - 1.
Proof.
  rewrite range_1.
  pose proof (count_sizes_all variables (length variables) ltac:(lia)) as Hc.
  rewrite <- cons_seq, count_sizes_cons, combinations_0 in Hc.
  unfold count_sizes in Hc. simpl in Hc. lia.
Qed.

Lemma combinations_NoDup `{EqDecision A} (pool : list A) r :
  NoDup pool → NoDup (combinations pool r).
Proof.
  intros Hnd.
  eapply StronglySorted_irrefl_NoDup; [|by apply combinations_lex_sorted].
  intros a. apply lex_lt_irrefl.
Qed.

(** ** Column lookup *)

Lemma get_loc_inr d label i :
  get_loc d label = inr i ↔
  columns d !! i = Some label ∧ ∀ j, j < i → columns d !! j ≠ Some label.
Proof.
  unfold get_loc.
  destruct (list_find (fun c => c = label) (columns d)) as [[k c]|] eqn:Hf.
  - apply list_find_Some in Hf as (Hk & -> & Hfirst). split.
    + intros [= <-]. split; [done|]. intros j Hj Hjl. by eapply Hfirst.
    + intros [Hi Hmin]. f_equal.
      destruct (Nat.lt_trichotomy i k) as [Hlt|[->|Hlt]]; [|done|].
      * by destruct (Hfirst i label Hi Hlt).
      * by destruct (Hmin k Hlt).
  - split; [done|]. intros [Hi _].
    apply list_find_None in Hf. rewrite Forall_forall in Hf.
    destruct (Hf label); [|done]. by eapply list_elem_of_lookup_2.
Qed.

Lemma get_loc_inl d label e :
  get_loc d label = inl e ↔ e = KeyError label ∧ label ∉ columns d.
Proof.
  unfold get_loc.
  destruct (list_find (fun c => c = label) (columns d)) as [[k c]|] eqn:Hf.
  - apply list_find_Some in Hf as (Hk & -> & _). split; [done|].
    intros [_ Hnot]. destruct Hnot. by eapply list_elem_of_lookup_2.
  - apply list_find_None in Hf. rewrite Forall_forall in Hf. split.
    + intros [= <-]. split; [done|]. intros Hin. by apply (Hf label).
    + by intros [-> _].
Qed.

Lemma select_years_inl d years e :
  select_years d years = inl e → e = KeyError "Year" ∧ "Year" ∉ columns d.
Proof.
  unfold select_years. destruct (get_loc d "Year") as [e'|i] eqn:Hloc; [|done].
  intros [= <-]. by apply get_loc_inl in Hloc.
Qed.

Lemma select_years_inr d years :
  "Year" ∈ columns d → ∃ df_selected, select_years d years = inr df_selected.
Proof.
  intros Hyear. destruct (select_years d years) as [e|dfs] eqn:Hsel; [|eauto].
  by apply select_years_inl in Hsel as [_ ?].
Qed.

(** ** The scenario runner *)

Lemma bind_inr {A B} (m : M A) (k : A → M B) s a s1 :
  m s = (inr a, s1) → (m ≫= k) s = k a s1.
Proof. intros Hm. cbv [mbind M_bind]. by rewrite Hm. Qed.

Lemma bind_inl {A B} (m : M A) (k : A → M B) s e s1 :
  m s = (inl e, s1) → (m ≫= k) s = (inl e, s1).
Proof. intros Hm. cbv [mbind M_bind]. by rewrite Hm. Qed.

Section scenario_runner.
Context `{Numerics}.

(** The statements before the loop never get past the enumeration. *)
Lemma prepare_scenario_raises scenario_name years s :
  prepare_scenario scenario_name years s
  = (inl (scenario_error (df (self s)) scenario_name years), s).
Proof.
  unfold prepare_scenario, scenario_error.
  cbv [mbind M_bind lift the_df get_self mret M_ret raise].
  destruct (resolve_years scenario_name years) as [e|ys]; [done|].
  destruct (df (self s)) as [d|]; [|done].
  by destruct (select_years d ys).
Qed.

Lemma process_scenario_raises scenario_name years s :
  process_scenario scenario_name years s
  = (inl (scenario_error (df (self s)) scenario_name years), s).
Proof.
  unfold process_scenario. by erewrite bind_inl by apply prepare_scenario_raises.
Qed.

Lemma scenario_error_eq sheet scenario_name years :
  scenario_error sheet scenario_name years
  = match resolve_years scenario_name years with
    | inl e => e
    | inr _ =>
        match sheet with
        | None => TypeError
        | Some d =>
            if decide ("Year" ∈ columns d)
            then AttributeError "chain_from_iterable"
            else KeyError "Year"
        end
    end.
Proof.
  unfold scenario_error.
  destruct (resolve_years scenario_name years) as [e|ys]; [done|].
  destruct sheet as [d|]; [|done].
  destruct (select_years d ys) as [e|dfs] eqn:Hsel.
  - apply select_years_inl in Hsel as [-> Hno]. by rewrite decide_False.
  - case_decide as Hyear; [done|]. unfold select_years in Hsel.
    destruct (get_loc d "Year") as [e|i] eqn:Hloc; [done|].
    apply get_loc_inr in Hloc as [Hi _]. destruct Hyear.
    by eapply list_elem_of_lookup_2.
Qed.

Lemma scenario_error_year d scenario_name years :
  "Year" ∈ columns d → years ≠ [] →
  scenario_error (Some d) scenario_name years
  = AttributeError "chain_from_iterable".
Proof.
  intros Hyear Hne. rewrite scenario_error_eq.
  destruct years; [done|]. cbn. by rewrite decide_True.
Qed.

(** The tasks run one after the other: each raises and leaves the
    state as it found it. *)
Lemma run_in_turn_raises scenarios s :
  run_in_turn scenarios s
  = ((fun sc => inl (scenario_error (df (self s)) sc.1 sc.2)) <$> scenarios,
     s).
Proof.
  induction scenarios as [|[name years] scenarios IH]; [done|].
  cbn [run_in_turn]. unfold run_task.
  rewrite process_scenario_raises, IH. done.
Qed.

End scenario_runner.

(** ** C2: the subset enumeration *)

(** C2. The enumeration of [process_scenario] is
    never produced: the expression names [itertools.chain_from_iterable],
    which the module does not define, so for every scenario, sheet and
    predictor list, the empty one included, the task ends by an
    exception and leaves the state as it was: that of the year lookup,
    of the missing sheet or Year column, or else AttributeError. The
    only combinations the program builds are those of
    [show_variable_selection], size by size, to count them: the
    [r]-subsequences of the predictor list, each group in lexicographic
    order of the positions and without repeats when the names are
    distinct, and 2^N - 1 of them over the sizes 1 to N. *)
Theorem subset_enumeration_raises `{Numerics}
  (scenario_name : string) (years : list Z) (s : State)
  (variables : list string) :
  process_scenario scenario_name years s
  = (inl match resolve_years scenario_name years with
         | inl e => e
         | inr _ =>
             match df (self s) with
             | None => TypeError
             | Some d =>
                 if decide ("Year" ∈ columns d)
                 then AttributeError "chain_from_iterable"
                 else KeyError "Year"
             end
         end, s)
  ∧ (∀ plan s', prepare_scenario scenario_name years s ≠ (inr plan, s'))
  ∧ (∀ returned s',
       process_scenario scenario_name years s ≠ (inr returned, s'))
  ∧ sum_list ((fun i => length (combinations variables i))
              <$> range 1 (length variables + 1))
    = 2 ^ length variables - 1
  ∧ (∀ r subset, subset ∈ combinations variables r ↔
       length subset = r ∧ subset `sublist_of` variables)
  ∧ (NoDup variables →
     ∀ r, NoDup (combinations variables r)
          ∧ StronglySorted
              (fun a b => lex_lt (positions variables a)
                                 (positions variables b))
              (combinations variables r)).
Proof.
  split_and!.
  - by rewrite process_scenario_raises, scenario_error_eq.
  - intros plan s'. by rewrite prepare_scenario_raises.
  - intros returned s'. by rewrite process_scenario_raises.
  - apply combinations_count.
  - intros r subset. split.
    + intros Hin. split; [by eapply combinations_length_elem|].
      by eapply combinations_sublist.
    + intros [<- Hsub]. by apply sublist_combinations.
  - intros Hnd r. split; [by apply combinations_NoDup|].
    by apply combinations_lex_sorted.
Qed.

(** At the sheet Year, Y, A, B the count of
    [show_variable_selection] is 3, and the scenario raises where it
    would enumerate. *)
Example subset_enumeration_sample :
  let s := loaded (sample_sheet (Z_range 2001 2024)) in
  (process_scenario (H := sample_numerics) "2001-2023" (Z_range 2001 2024) s).1
  = inl (AttributeError "chain_from_iterable")
  ∧ num_combinations (self (show_variable_selection s).2) = 3
  ∧ combinations ["A"; "B"] 1 = [["A"]; ["B"]]
  ∧ combinations ["A"; "B"] 2 = [["A"; "B"]].
Proof. vm_compute. done. Qed.

(** ** C4 and C5: the ANOVA table *)

Lemma calculate_anova_table_total `{Numerics} (m : RegressionResults)
  (s : State) :
  ∃ t, calculate_anova_table m s = (inr t, s) ∧ anova_invariant t
       ∧ loc t "Residual" "MS" = Some (Number (ssr m / df_resid m)%float)
       ∧ loc t "Regression" "F"
         = Some (Number ((ess m / df_model m) / (ssr m / df_resid m))%float).
Proof.
  eexists. split; [reflexivity|]. split; [|split; reflexivity].
  exists (df_model m), (df_resid m), (ess m), (ssr m).
  cbv zeta. unfold absent. split_and!; reflexivity.
Qed.

(** C4. For every results object the calculator returns the table
    with the rows Regression, Residual and Total whose cells are:
    df = df_model, df_resid and their sum; SS = ess, ssr and their
    sum; MS = SS / df on the Regression and Residual rows;
    F = MS_regression / MS_residual and the formatted p-value on the
    Regression row; and NaN, the missing entry, for MS, F and
    significance on the Total row and for F and significance on the
    Residual row. All sums and quotients are binary64 operations. *)
Theorem anova_table_invariants `{Numerics} (m : RegressionResults)
  (s : State) :
  ∃ t,
    calculate_anova_table m s = (inr t, s)
    ∧ frame_index t = ["Regression"; "Residual"; "Total"]
    ∧ fst <$> frame_columns t = ["df"; "SS"; "MS"; "F"; "Significance F"]
    ∧ loc t "Regression" "df" = Some (Number (df_model m))
    ∧ loc t "Residual" "df" = Some (Number (df_resid m))
    ∧ loc t "Total" "df" = Some (Number (df_model m + df_resid m)%float)
    ∧ loc t "Regression" "SS" = Some (Number (ess m))
    ∧ loc t "Residual" "SS" = Some (Number (ssr m))
    ∧ loc t "Total" "SS" = Some (Number (ess m + ssr m)%float)
    ∧ loc t "Regression" "MS" = Some (Number (ess m / df_model m)%float)
    ∧ loc t "Residual" "MS" = Some (Number (ssr m / df_resid m)%float)
    ∧ loc t "Regression" "F"
      = Some (Number ((ess m / df_model m) / (ssr m / df_resid m))%float)
    ∧ loc t "Regression" "Significance F"
      = Some (Text (format_4f (f_pvalue m)))
    ∧ absent (loc t "Total" "MS")
    ∧ absent (loc t "Total" "F")
    ∧ absent (loc t "Total" "Significance F")
    ∧ absent (loc t "Residual" "F")
    ∧ absent (loc t "Residual" "Significance F").
Proof.
  eexists. split; [reflexivity|]. unfold absent. split_and!; reflexivity.
Qed.

(** At a model with 2 and 7 degrees of freedom and sums of squares
    2 and 1: the totals are 9 and 3, the mean squares 1 and 1/7, and
    F is 1 / (1/7). *)
Example anova_table_sample :
  ∃ t,
    calculate_anova_table (H := sample_numerics)
      (sample_results ["A"; "B"] 2 7 2 1) empty_session
    = (inr t, empty_session)
    ∧ frame_row t 0
      = [Number 2; Number 2; Number 1; Number (1 / (1 / 7));
         Text "finite"]
    ∧ frame_row t 1
      = [Number 7; Number 1; Number (1 / 7); Number nan; Number nan]
    ∧ frame_row t 2
      = [Number 9; Number 3; Number nan; Number nan; Number nan].
Proof. eexists. split; [reflexivity|]. vm_compute. done. Qed.


(** C5, as the code has it. The ANOVA calculator leaves the state
    untouched and returns a table for every model; it has no failing
    case. With zero residual degrees of freedom the Residual mean
    square is [ssr / 0], an infinity or a NaN, and F is computed from
    it. *)
Theorem anova_calculator_total `{Numerics} (m : RegressionResults)
  (s : State) :
  ∃ t, calculate_anova_table m s = (inr t, s)
       ∧ anova_invariant t
       ∧ loc t "Residual" "MS" = Some (Number (ssr m / df_resid m)%float)
       ∧ loc t "Regression" "F"
         = Some (Number ((ess m / df_model m) / (ssr m / df_resid m))%float).
Proof. apply calculate_anova_table_total. Qed.

(** C5 as stated fails: a model with zero residual degrees of freedom
    gets a table (with NaN cells), not an error. *)
Lemma anova_zero_residual_df_returns :
  let m := sample_results ["A"] 1 0 2 0 in
  df_resid m = 0%float
  ∧ (∀ e s', calculate_anova_table (H := sample_numerics) m empty_session
             ≠ (inl e, s'))
  ∧ ∃ t, calculate_anova_table (H := sample_numerics) m empty_session
         = (inr t, empty_session)
         ∧ loc t "Residual" "MS" = Some (Number nan)
         ∧ loc t "Regression" "F" = Some (Number nan).
Proof.
  split; [reflexivity|]. split; [intros e s'; discriminate|].
  eexists. split; [reflexivity|]. split; reflexivity.
Qed.

(** ** C7: the year filter *)

Lemma predefined_years_get scenario_name default :
  (scenario_name, default) ∈ predefined_years →
  dict_get predefined_years scenario_name = inr default ∧ default ≠ [].
Proof.
  unfold predefined_years. rewrite !elem_of_cons, elem_of_nil.
  intros [H|[H|[H|[H|[H|[]]]]]]; injection H as -> ->;
    (split; [reflexivity|by vm_compute]).
Qed.

Lemma dict_get_elem_of {V} (d : list (string * V)) key v :
  dict_get d key = inr v → (key, v) ∈ d.
Proof.
  induction d as [|[k w] d IH]; simpl; [done|].
  case_decide as Hk.
  - intros [= ->]. subst. by left.
  - intros Hv. right. auto.
Qed.

Lemma resolve_years_nonempty scenario_name years ys :
  resolve_years scenario_name years = inr ys → ys ≠ [].
Proof.
  destruct years as [|y years]; unfold resolve_years.
  - intros Hget%dict_get_elem_of.
    by apply predefined_years_get in Hget as [_ ?].
  - by intros [= <-].
Qed.


(** C7. An empty year selection is not an error for a predefined
    scenario: the scenario's predefined years are used in its place,
    the run is the run that the explicit default selection gives, and
    those years are not empty; whatever the selection, the years a
    scenario proceeds with are never empty. *)
Theorem empty_years_use_default `{Numerics}
  (scenario_name : string) (default : list Z) :
  (scenario_name, default) ∈ predefined_years →
  default ≠ []
  ∧ resolve_years scenario_name [] = inr default
  ∧ (∀ s, prepare_scenario scenario_name [] s
          = prepare_scenario scenario_name default s)
  ∧ (∀ s, process_scenario scenario_name [] s
          = process_scenario scenario_name default s)
  ∧ (∀ s name' scenario_results s',
       process_scenario scenario_name [] s
       = (inr (name', scenario_results), s') →
       Forall (fun r => selected_years r = default) scenario_results)
  ∧ (∀ name years ys, resolve_years name years = inr ys → ys ≠ []).
Proof.
  intros Hin. destruct (predefined_years_get _ _ Hin) as [Hget Hne].
  assert (resolve_years scenario_name default = inr default) as Hdef.
  { by destruct default. }
  assert (∀ s, prepare_scenario scenario_name [] s
               = prepare_scenario scenario_name default s) as Hprep.
  { intros s. rewrite !prepare_scenario_raises. unfold scenario_error.
    rewrite Hdef. unfold resolve_years. by rewrite Hget. }
  split_and!; try done.
  - intros s. unfold process_scenario. cbv [mbind M_bind].
    by rewrite Hprep.
  - intros s name' rs s' Hrun. by rewrite process_scenario_raises in Hrun.
  - apply resolve_years_nonempty.
Qed.

Lemma empty_years_use_default_witness :
  resolve_years "2001-2019" [] = inr (Z_range 2001 2020)
  ∧ Z_range 2001 2020 ≠ [].
Proof.
  assert (("2001-2019", Z_range 2001 2020) ∈ predefined_years) as Hin.
  { unfold predefined_years. do 3 right. left. }
  destruct (empty_years_use_default (H := sample_numerics) _ _ Hin)
    as (Hne & Hres & _).
  exact (conj Hres Hne).
Defined.

(** ** C8: the missing Year column *)

Lemma quiet_refl s : quiet [] s s.
Proof. unfold quiet. rewrite app_nil_r. tauto. Qed.

Lemma quiet_trans l1 l2 s1 s2 s3 :
  quiet l1 s1 s2 → quiet l2 s2 s3 → quiet (l1 ++ l2) s1 s3.
Proof.
  unfold quiet. intros H12 H23. destruct_and!.
  split_and!; try congruence.
  rewrite app_assoc. congruence.
Qed.

Lemma quiet_bind {A B} (m : M A) (k : A → M B) s :
  quiet [] s (m s).2 →
  (∀ a s1, quiet [] s1 (k a s1).2) →
  quiet [] s ((m ≫= k) s).2.
Proof.
  intros Hm Hk. cbv [mbind M_bind].
  destruct (m s) as [[e|a] s1]; [done|].
  apply (quiet_trans [] [] s s1); [done|apply Hk].
Qed.

Lemma errors_shown_snoc scr e :
  errors_shown (scr ++ [e])
  = errors_shown scr ++ match e with st_error msg => [msg] | _ => [] end.
Proof. unfold errors_shown. rewrite omap_app. by destruct e. Qed.

Lemma show_quiet e s :
  (∀ msg, e ≠ st_error msg) → quiet [] s (show e s).2.
Proof.
  intros He. unfold quiet; cbn. rewrite errors_shown_snoc.
  split_and!; try done. destruct e; try done. by destruct (He msg).
Qed.

Lemma for_each_quiet {A} (body : A → M unit) xs s :
  (∀ x s1, quiet [] s1 (body x s1).2) →
  quiet [] s (for_each body xs s).2.
Proof.
  intros Hbody. revert s. induction xs as [|x xs IH]; intros s; simpl.
  - apply quiet_refl.
  - apply quiet_bind; [apply Hbody|]. intros _ s1. apply IH.
Qed.

Lemma show_variable_selection_quiet s :
  quiet [] s (show_variable_selection s).2.
Proof.
  unfold show_variable_selection.
  apply quiet_bind; [apply quiet_refl|]. intros app s1.
  destruct (df app) as [d|]; [|by apply show_quiet].
  apply quiet_bind.
  { unfold quiet; cbn. by rewrite app_nil_r. }
  intros _ s2.
  repeat (apply quiet_bind; [by apply show_quiet|intros _ ?]).
  apply for_each_quiet. intros. by apply show_quiet.
Qed.

Lemma tabs_quiet tab_titles s : quiet [] s (tabs tab_titles s).2.
Proof.
  destruct tab_titles; [apply quiet_refl|]. by apply show_quiet.
Qed.

Lemma the_download_links_state s : (the_download_links s).2 = s.
Proof. unfold the_download_links. by destruct (download_links s). Qed.

Lemma read_file_state excel_filename s : (read_file excel_filename s).2 = s.
Proof. unfold read_file. by destruct (files s !! excel_filename). Qed.

Lemma display_tab_quiet `{Numerics} sc s : quiet [] s (display_tab sc s).2.
Proof.
  destruct sc as [name rs]. unfold display_tab.
  apply quiet_bind; [apply quiet_refl|]. intros summary s1.
  apply quiet_bind; [by apply show_quiet|]. intros _ s2.
  apply quiet_bind.
  { rewrite the_download_links_state. apply quiet_refl. }
  intros links s3. destruct (links !! name) as [file|]; [|apply quiet_refl].
  apply quiet_bind.
  { rewrite read_file_state. apply quiet_refl. }
  intros data s4. by apply show_quiet.
Qed.

Lemma display_results_page_quiet `{Numerics} s :
  quiet [] s (display_results_page s).2.
Proof.
  unfold display_results_page.
  apply quiet_bind; [apply quiet_refl|]. intros s0 s1.
  destruct (session_results s0); [|by apply show_quiet].
  apply quiet_bind; [apply tabs_quiet|]. intros _ s2.
  apply for_each_quiet. intros sc s3. apply display_tab_quiet.
Qed.

Lemma run_regression_scenarios_no_year `{Numerics} (s : State) (d : DataFrame) :
  df (self s) = Some d →
  "Year" ∉ columns d →
  run_regression_scenarios s
  = (inr tt,
     (show (st_error "The 'Year' column is missing from the uploaded file.")
        s).2).
Proof.
  intros Hd Hyear. unfold run_regression_scenarios.
  cbv [mbind M_bind get_self]. rewrite Hd. by rewrite decide_False.
Qed.

(** C8. On a sheet without a Year column the batch stops at once with
    one error message: [run_regression_scenarios] returns after showing
    it, having run no regression, completed none, written no file and
    stored no result; and a whole script run with the button pressed
    ends with a completed count of 0 and that single new error. *)
Theorem missing_year_column `{Numerics} (d : DataFrame) (s : State) :
  "Year" ∉ columns d →
  let msg := "The 'Year' column is missing from the uploaded file." in
  (df (self s) = Some d →
   ∃ s', run_regression_scenarios s = (inr tt, s')
         ∧ self s' = self s
         ∧ quiet [msg] s s')
  ∧ (let s' := (main (Some d) true s).2 in
     completed_regressions (self s') = 0
     ∧ regressions_run s' = regressions_run s
     ∧ files s' = files s
     ∧ download_links s' = download_links s
     ∧ session_results s' = session_results s
     ∧ errors_shown (screen s') = errors_shown (screen s) ++ [msg]).
Proof.
  intros Hyear msg. split.
  - intros Hd. eexists.
    split; [by apply (run_regression_scenarios_no_year s d)|].
    split; [done|]. unfold quiet; cbn. by rewrite errors_shown_snoc.
  - unfold main.
    do 4 erewrite bind_inr by reflexivity.
    erewrite bind_inr
      by (apply (run_regression_scenarios_no_year _ d); [reflexivity|done]).
    match goal with |- context [(?rest ?s4).2] =>
      assert (quiet [] s4 (rest s4).2) as Hrest
    end.
    { repeat (apply quiet_bind;
              [first [by apply show_quiet|apply show_variable_selection_quiet]
              |intros ? ?]).
      apply quiet_bind; [apply quiet_refl|]. intros sa sb.
      destruct (session_results sa);
        [apply display_results_page_quiet|apply quiet_refl]. }
    destruct Hrest as (Hdone & _ & Hrun & Hfiles & Hlinks & Hres & Herr).
    cbv zeta. rewrite Hdone, Hrun, Hfiles, Hlinks, Hres, Herr.
    cbn. rewrite !errors_shown_snoc, !app_nil_r. done.
Qed.

Lemma missing_year_column_witness :
  let d := {| columns := ["Period"; "Y"; "A"; "B"];
              rows := [[CInt 2001; CFloat 1; CFloat 2; CFloat 3]] |} in
  let s' := (main (H := sample_numerics) (Some d) true empty_session).2 in
  completed_regressions (self s') = 0
  ∧ regressions_run s' = []
  ∧ files s' = ∅
  ∧ errors_shown (screen s')
    = ["The 'Year' column is missing from the uploaded file."].
Proof.
  intros d.
  assert ("Year" ∉ columns d) as Hyear.
  { apply (bool_decide_unpack _). vm_compute. reflexivity. }
  destruct (missing_year_column (H := sample_numerics) d empty_session Hyear)
    as (_ & Hdone & Hrun & Hfiles & _ & _ & Herr).
  exact (conj Hdone (conj Hrun (conj Hfiles Herr))).
Defined.

(** ** The pages *)

Lemma keeps_bind {A B C} (view : State → C) (m : M A) (k : A → M B) s :
  (∀ sa, view (m sa).2 = view sa) →
  (∀ a sa, view (k a sa).2 = view sa) →
  view ((m ≫= k) s).2 = view s.
Proof.
  intros Hm Hk. cbv [mbind M_bind]. specialize (Hm s).
  destruct (m s) as [[e|a] s1]; [done|]. rewrite Hk. done.
Qed.

Lemma keeps_for_each {A C} (view : State → C) (body : A → M unit) xs s :
  (∀ x sa, view (body x sa).2 = view sa) →
  view (for_each body xs s).2 = view s.
Proof.
  intros Hbody. revert s. induction xs as [|x xs IH]; intros s; [done|].
  simpl. apply keeps_bind; [apply Hbody|]. intros _ sa. apply IH.
Qed.

(** What [show_variable_selection] leaves in the application object. *)
Lemma show_variable_selection_self s d :
  df (self s) = Some d →
  let n := sum_list ((fun i => length (combinations (predictor_columns d) i))
                     <$> range 1 (length (predictor_columns d) + 1)) in
  self (show_variable_selection s).2
  = {| df := Some d; variables := predictor_columns d;
       scenarios := scenarios (self s);
       num_combinations := n; total_regressions := 5 * n;
       completed_regressions := completed_regressions (self s) |}.
Proof.
  intros Hd n. unfold show_variable_selection.
  erewrite bind_inr by reflexivity. rewrite Hd.
  erewrite bind_inr by reflexivity.
  rewrite (keeps_bind self).
  - cbn. by rewrite Hd.
  - done.
  - intros _ sa. repeat (apply (keeps_bind self); [done|intros _ ?]).
    apply (keeps_for_each self). done.
Qed.

(** ** The batch *)

Section batch.
Context `{Numerics}.

(** The batch on a sheet that has a Year column. *)
Lemma run_regression_scenarios_year s d :
  df (self s) = Some d →
  "Year" ∈ columns d →
  let run := run_in_turn (scenarios (self s)) (batch_started s) in
  run_regression_scenarios s
  = match gather run.1 with
    | inl e => (inl e, run.2)
    | inr all_results =>
        (prepare_downloads all_results;;
         show_combined_results_window all_results) run.2
    end.
Proof.
  intros Hd Hyear run. unfold run_regression_scenarios.
  erewrite bind_inr by reflexivity. rewrite Hd, decide_True by done.
  erewrite bind_inr by reflexivity. erewrite bind_inr by reflexivity.
  assert ((show st_empty (show (st_progress 0) s).2).2 = batch_started s)
    as Hstart.
  { unfold batch_started. cbn. by rewrite <- app_assoc. }
  match goal with |- _ ?s0 = _ =>
    change s0 with (show st_empty (show (st_progress 0) s).2).2
  end.
  rewrite Hstart. subst run.
  destruct (run_in_turn (scenarios (self s)) (batch_started s))
    as [os s1] eqn:Hrun.
  erewrite bind_inr by (by rewrite Hrun). cbn [fst snd].
  by destruct (gather os).
Qed.

Lemma predefined_years_nonempty :
  Forall (fun sc : string * list Z => sc.2 ≠ []) predefined_years.
Proof.
  apply Forall_forall. intros [name years] Hin.
  by apply predefined_years_get in Hin as [_ ?].
Qed.

Lemma gather_raised {A} (errors : list exception) :
  gather ((fun e => @inl exception A e) <$> errors)
  = match errors with
    | [] => inr []
    | e :: _ => inl e
    end.
Proof. by destruct errors. Qed.

(** On a sheet with a Year column the batch creates its progress bar
    and raises what its first scenario raises. *)
Lemma run_regression_scenarios_raises s d name years rest :
  df (self s) = Some d →
  "Year" ∈ columns d →
  scenarios (self s) = (name, years) :: rest →
  run_regression_scenarios s
  = (inl (scenario_error (Some d) name years), batch_started s).
Proof.
  intros Hd Hyear Hsc. rewrite (run_regression_scenarios_year s d) by done.
  cbv zeta. rewrite run_in_turn_raises, Hsc. cbn [fst snd gather fmap
    list_fmap batch_started self]. by rewrite Hd.
Qed.

(** A script run with a sheet and the button pressed, up to the
    batch. *)
Lemma main_button (d : DataFrame) (s : State) :
  main (Some d) true s
  = (run_regression_scenarios;;
     show (st_write "### Existing Scenarios:");;
     display_scenarios;;
     show (st_write "### Variables:");;
     show_variable_selection;;
     s' ← (fun s' => (inr s', s'));
     match session_results s' with
     | Some _ => display_results_page
     | None => mret tt
     end) (uploaded d s).
Proof.
  unfold main, choose_file, uploaded.
  cbv [mbind M_bind mret M_ret modify show with_self self init
       scenarios num_combinations total_regressions completed_regressions
       screen session_results download_links files regressions_run].
  rewrite <- !app_assoc. reflexivity.
Qed.

(** With a Year column that run ends in the batch. *)
Lemma main_button_raises (d : DataFrame) (s : State) :
  "Year" ∈ columns d →
  main (Some d) true s
  = (inl (AttributeError "chain_from_iterable"),
     batch_started (uploaded d s)).
Proof.
  intros Hyear. rewrite main_button.
  erewrite bind_inl; [done|].
  erewrite (run_regression_scenarios_raises (uploaded d s) d);
    [|done|done|reflexivity].
  rewrite scenario_error_year; [done|done|]. by vm_compute.
Qed.

Lemma results_shown_started s :
  results_shown (screen (batch_started s)) = results_shown (screen s).
Proof.
  unfold batch_started, results_shown. cbn [screen]. rewrite omap_app.
  cbn [omap list_omap]. by rewrite app_nil_r.
Qed.

Lemma errors_shown_started s :
  errors_shown (screen (batch_started s)) = errors_shown (screen s).
Proof.
  unfold batch_started, errors_shown. cbn [screen]. rewrite omap_app.
  cbn [omap list_omap]. by rewrite app_nil_r.
Qed.

End batch.

(** ** Script runs without a batch *)

Lemma for_each_cons {A} (body : A → M unit) x xs s :
  for_each body (x :: xs) s
  = match body x s with
    | (inl e, s') => (inl e, s')
    | (inr _, s') => for_each body xs s'
    end.
Proof. reflexivity. Qed.

Lemma for_each_show {A} (f : A → st_event) (xs : list A) s :
  (for_each (fun x => show (f x)) xs s).1 = inr tt
  ∧ screen (for_each (fun x => show (f x)) xs s).2 = screen s ++ (f <$> xs).
Proof.
  revert s. induction xs as [|x xs IH]; intros s.
  { cbn. by rewrite app_nil_r. }
  rewrite for_each_cons. cbn [show modify].
  destruct (IH (show (f x) s).2) as [Hr Hscr].
  cbn [show modify fst snd] in *. rewrite Hr, Hscr. cbn [screen].
  by rewrite <- app_assoc.
Qed.

Lemma warnings_shown_snoc scr e :
  warnings_shown (scr ++ [e])
  = warnings_shown scr ++ match e with st_warning msg => [msg] | _ => [] end.
Proof. unfold warnings_shown. rewrite omap_app. by destruct e. Qed.

Lemma results_shown_snoc scr e :
  results_shown (scr ++ [e])
  = results_shown scr ++ results_shown [e].
Proof. unfold results_shown. by rewrite omap_app. Qed.

Lemma results_shown_snoc_list scr (events : list st_event) :
  results_shown events = [] →
  results_shown (scr ++ events) = results_shown scr.
Proof.
  intros He. unfold results_shown in *. by rewrite omap_app, He, app_nil_r.
Qed.

(** The results page changes nothing but the screen, and shows no
    warning. *)
Lemma display_results_page_keeps `{Numerics} s :
  let s' := (display_results_page s).2 in
  self s' = self s
  ∧ warnings_shown (screen s') = warnings_shown (screen s)
  ∧ regressions_run s' = regressions_run s
  ∧ files s' = files s
  ∧ download_links s' = download_links s
  ∧ session_results s' = session_results s.
Proof.
  set (view := fun s : State =>
    (self s, warnings_shown (screen s), regressions_run s, files s,
     download_links s, session_results s)).
  enough (view (display_results_page s).2 = view s) as [= ? ? ? ? ? ?]
    by done.
  assert (∀ e sa, (∀ msg, e ≠ st_warning msg) → view (show e sa).2 = view sa)
    as Hshow.
  { intros e sa He. unfold view. cbn. rewrite warnings_shown_snoc.
    destruct e; try by rewrite app_nil_r. by destruct (He msg). }
  unfold display_results_page. apply keeps_bind; [done|]. intros s0 sa.
  destruct (session_results s0); [|by apply Hshow].
  apply keeps_bind.
  { intros sb. unfold tabs. destruct (_ <$> _); [done|]. by apply Hshow. }
  intros _ sb. apply keeps_for_each. intros [name rs] sc. unfold display_tab.
  apply keeps_bind; [done|]. intros summary sd.
  apply keeps_bind; [intros; by apply Hshow|]. intros _ se.
  apply keeps_bind; [intros; by rewrite the_download_links_state|].
  intros links sf. destruct (links !! name) as [file|]; [|done].
  apply keeps_bind; [intros; by rewrite read_file_state|].
  intros data sg. by apply Hshow.
Qed.

Lemma show_variable_selection_returns s :
  (show_variable_selection s).1 = inr tt.
Proof.
  unfold show_variable_selection. erewrite bind_inr by reflexivity.
  destruct (df (self s)) as [d|]; [|done].
  do 4 erewrite bind_inr by reflexivity.
  match goal with |- context [for_each ?body ?xs ?s5] =>
    apply (for_each_show (fun var => st_write ("- " +:+ var)) xs s5)
  end.
Qed.


(** What [show_variable_selection] shows for a sheet. *)
Lemma show_variable_selection_shows s d :
  df (self s) = Some d →
  let N := length (predictor_columns d) in
  screen (show_variable_selection s).2
  = screen s
    ++ [st_subheader (str_nat N +:+ " variables found.");
        st_subheader
          ("Regression will create " +:+ str_nat (2 ^ N - 1)
           +:+ " variable combinations (Total Regressions: "
           +:+ str_nat (5 * (2 ^ N - 1)) +:+ ").");
        st_write "### Variables:"]
    ++ ((fun var => st_write ("- " +:+ var)) <$> predictor_columns d).
Proof.
  intros Hd N.
  remember (show_variable_selection s) as r eqn:Hrun.
  unfold show_variable_selection in Hrun.
  erewrite bind_inr in Hrun by reflexivity. rewrite Hd in Hrun.
  do 4 erewrite bind_inr in Hrun by reflexivity.
  rewrite combinations_count in Hrun.
  match type of Hrun with _ = for_each ?body ?xs ?s5 =>
    destruct (for_each_show (fun var => st_write ("- " +:+ var)) xs s5)
      as [_ Hscr]
  end.
  rewrite <- Hrun in Hscr. rewrite Hscr.
  cbn [screen show modify snd]. rewrite <- !app_assoc. done.
Qed.

Lemma main_no_file `{Numerics} (button : bool) (s : State) :
  main None button s
  = (match session_results s with
     | Some _ => display_results_page
     | None => mret tt
     end)
      {| self := init;
         screen :=
           screen s
           ++ [st_title "SG2024 Regression Analysis Crazy-Fast Tool";
               st_write "### Upload Xlsx Source File:"]
           ++ (if button
               then [st_warning "Please upload an Excel file first."]
               else [])
           ++ [st_write "### Existing Scenarios:"; st_table;
               st_write "### Variables:";
               st_warning "Please upload an Excel file first."];
         session_results := session_results s;
         download_links := download_links s; files := files s;
         regressions_run := regressions_run s |}.
Proof.
  unfold main, choose_file, run_regression_scenarios, show_variable_selection,
    display_scenarios.
  cbv [mbind M_bind mret M_ret modify show with_self get_self self df init
       screen session_results download_links files regressions_run].
  destruct button; cbn [app]; rewrite <- !app_assoc; reflexivity.
Qed.

(** The script with a file and the button not pressed, up to the
    variables section. *)
Lemma main_with_file `{Numerics} (d : DataFrame) (s : State) :
  main (Some d) false s
  = (show_variable_selection;;
     s' ← (fun s' => (inr s', s'));
     match session_results s' with
     | Some _ => display_results_page
     | None => mret tt
     end)
      {| self := {| df := Some d; variables := predictor_columns d;
                    scenarios := predefined_years;
                    num_combinations := 0; total_regressions := 0;
                    completed_regressions := 0 |};
         screen :=
           screen s
           ++ [st_title "SG2024 Regression Analysis Crazy-Fast Tool";
               st_write "### Upload Xlsx Source File:";
               st_write "### Columns in the uploaded file:";
               st_write_list (columns d);
               st_write "### Existing Scenarios:"; st_table;
               st_write "### Variables:"];
         session_results := session_results s;
         download_links := download_links s; files := files s;
         regressions_run := regressions_run s |}.
Proof.
  unfold main, choose_file, display_scenarios.
  cbv [mbind M_bind mret M_ret modify show with_self self init
       scenarios num_combinations total_regressions completed_regressions
       screen session_results download_links files regressions_run].
  rewrite <- !app_assoc. reflexivity.
Qed.

(** What that run leaves. *)
Lemma main_with_file_run `{Numerics} (d : DataFrame) (s : State) :
  let run := main (Some d) false s in
  let N := length (predictor_columns d) in
  self run.2
  = {| df := Some d; variables := predictor_columns d;
       scenarios := predefined_years;
       num_combinations := 2 ^ N - 1;
       total_regressions := 5 * (2 ^ N - 1);
       completed_regressions := 0 |}
  ∧ regressions_run run.2 = regressions_run s
  ∧ files run.2 = files s
  ∧ download_links run.2 = download_links s
  ∧ session_results run.2 = session_results s
  ∧ errors_shown (screen run.2) = errors_shown (screen s).
Proof.
  intros run N. unfold run. rewrite main_with_file.
  match goal with |- context [(show_variable_selection ≫= ?k) ?s8] =>
    pose proof (show_variable_selection_self s8 d eq_refl) as Hself;
    pose proof (show_variable_selection_quiet s8) as Hquiet;
    pose proof (show_variable_selection_returns s8) as Hret;
    destruct (show_variable_selection s8) as [r s9] eqn:Hshow;
    cbn [fst snd] in Hself, Hquiet, Hret; subst r;
    rewrite (bind_inr show_variable_selection k s8 tt s9 Hshow)
  end.
  cbn zeta in Hself. rewrite combinations_count in Hself. fold N in Hself.
  cbn [self with_self scenarios completed_regressions init] in Hself.
  destruct Hquiet as (_ & _ & Hlog & Hfiles & Hlinks & Hres & Herr).
  cbn [self screen regressions_run files download_links session_results
       with_self show modify snd] in Hlog, Hfiles, Hlinks, Hres, Herr.
  unfold errors_shown in Herr. rewrite omap_app in Herr.
  cbn [omap list_omap] in Herr. rewrite !app_nil_r in Herr.
  fold (errors_shown (screen s9)) in Herr.
  fold (errors_shown (screen s)) in Herr.
  erewrite bind_inr by reflexivity.
  destruct (session_results s9) as [all_results|] eqn:Hs9.
  - pose proof (display_results_page_keeps s9) as Hpage.
    pose proof (display_results_page_quiet s9) as Hpage'.
    destruct (display_results_page s9) as [r s10]. cbn [fst snd] in *.
    destruct Hpage as (-> & _ & -> & -> & -> & ->).
    destruct Hpage' as (_ & _ & _ & _ & _ & _ & ->).
    rewrite app_nil_r. split_and!; congruence.
  - cbv [mret M_ret]. cbn [fst snd]. split_and!; congruence.
Qed.

(** ** C10: positional column binding *)

Lemma predictor_columns_lookup (d : DataFrame) (j : nat) :
  predictor_columns d !! j = columns d !! (2 + j).
Proof. unfold predictor_columns. by rewrite lookup_drop. Qed.

Lemma results_shown_uploaded d s :
  results_shown (screen (uploaded d s)) = results_shown (screen s).
Proof.
  unfold uploaded, results_shown. cbn [screen]. rewrite omap_app.
  cbn [omap list_omap]. by rewrite app_nil_r.
Qed.

Lemma errors_shown_uploaded d s :
  errors_shown (screen (uploaded d s)) = errors_shown (screen s).
Proof.
  unfold uploaded, errors_shown. cbn [screen]. rewrite omap_app.
  cbn [omap list_omap]. by rewrite app_nil_r.
Qed.

(** C10. Columns are bound by position, whatever their names: the
    predictor list is the header from index 2 on and the response label
    is the header at index 1. With the Year column at index 2 or later,
    Year is one of the predictors: the variables section lists it and
    counts the subsets that contain it, and the existence check of the
    batch passes. No scenario enumerates a subset, though: the batch
    shows no error, creates its progress bar, fits nothing and raises
    AttributeError at the enumeration of its first scenario, as does
    every scenario with years to select. *)
Theorem year_among_predictors `{Numerics}
  (d : DataFrame) (s : State) (i : nat) :
  columns d !! i = Some "Year" →
  2 ≤ i →
  let N := length (predictor_columns d) in
  let run := main (Some d) true s in
  variables (self (choose_file (Some d) s).2) = predictor_columns d
  ∧ (∀ j, predictor_columns d !! j = columns d !! (2 + j))
  ∧ predictor_columns d !! (i - 2) = Some "Year"
  ∧ (∃ y, columns d !! 1 = Some y ∧ response_column d = inr y)
  ∧ (∀ s0, df (self s0) = Some d →
       variables (self (show_variable_selection s0).2) = predictor_columns d
       ∧ num_combinations (self (show_variable_selection s0).2) = 2 ^ N - 1
       ∧ st_write "- Year" ∈ screen (show_variable_selection s0).2)
  ∧ (∀ subset, "Year" ∈ subset → sublist subset (predictor_columns d) →
       subset ∈ combinations (predictor_columns d) (length subset))
  ∧ run = (inl (AttributeError "chain_from_iterable"),
           batch_started (uploaded d s))
  ∧ errors_shown (screen run.2) = errors_shown (screen s)
  ∧ results_shown (screen run.2) = results_shown (screen s)
  ∧ regressions_run run.2 = regressions_run s
  ∧ session_results run.2 = session_results s
  ∧ (∀ scenario_name years s0,
       df (self s0) = Some d → years ≠ [] →
       process_scenario scenario_name years s0
       = (inl (AttributeError "chain_from_iterable"), s0)).
Proof.
  intros Hi Hle N run.
  assert ("Year" ∈ columns d) as Hyear by by eapply list_elem_of_lookup_2.
  assert (predictor_columns d !! (i - 2) = Some "Year") as Hpred.
  { rewrite predictor_columns_lookup. by replace (2 + (i - 2)) with i by lia. }
  assert (run = (inl (AttributeError "chain_from_iterable"),
                 batch_started (uploaded d s)))
    as Hrun by by apply main_button_raises.
  split_and!.
  - reflexivity.
  - apply predictor_columns_lookup.
  - done.
  - destruct (columns d !! 1) as [y|] eqn:Hy.
    + exists y. split; [done|]. unfold response_column. by rewrite Hy.
    + apply lookup_ge_None in Hy. apply lookup_lt_Some in Hi. lia.
  - intros s0 Hd. pose proof (show_variable_selection_self s0 d Hd) as Hself.
    cbn zeta in Hself. rewrite Hself. cbn [variables num_combinations].
    split_and!; [done|apply combinations_count|].
    rewrite (show_variable_selection_shows s0 d Hd).
    rewrite !elem_of_app. right. right. apply list_elem_of_fmap.
    exists "Year". split; [done|]. by eapply list_elem_of_lookup_2.
  - intros subset _ Hsub. by apply sublist_combinations.
  - done.
  - rewrite Hrun. cbn [snd].
    by rewrite errors_shown_started, errors_shown_uploaded.
  - rewrite Hrun. cbn [snd].
    by rewrite results_shown_started, results_shown_uploaded.
  - by rewrite Hrun.
  - by rewrite Hrun.
  - intros scenario_name years s0 Hd Hne.
    rewrite process_scenario_raises, Hd. by rewrite scenario_error_year.
Qed.

Lemma year_among_predictors_witness :
  predictor_columns year_third_sheet = ["Year"; "A"]
  ∧ main (H := sample_numerics) (Some year_third_sheet) true empty_session
    = (inl (AttributeError "chain_from_iterable"),
       batch_started (uploaded year_third_sheet empty_session)).
Proof.
  destruct (year_among_predictors (H := sample_numerics)
              year_third_sheet empty_session 2 eq_refl (le_n 2))
    as (_ & _ & _ & _ & _ & _ & Hrun & _).
  exact (conj eq_refl Hrun).
Defined.

(** ** C1: a degenerate fit *)

(** C1. The batch has no failed-fit record and no fit to fail: on a
    sheet with a Year column (however few rows the years select, and
    whatever the fitting library does with them) every scenario with
    years to select raises AttributeError at its enumeration, before
    its first fit, and leaves the state as it found it; the batch,
    having created its progress bar, raises that exception out of its
    first scenario, and so does the script run, which stores and shows
    no result. *)
Theorem batch_raises_before_any_fit `{Numerics} (d : DataFrame) (s : State) :
  df (self s) = Some d →
  "Year" ∈ columns d →
  scenarios (self s) ≠ [] →
  Forall (fun sc : string * list Z => sc.2 ≠ []) (scenarios (self s)) →
  let run := main (Some d) true s in
  run_regression_scenarios s
  = (inl (AttributeError "chain_from_iterable"), batch_started s)
  ∧ Forall (fun sc : string * list Z =>
      process_scenario sc.1 sc.2 s
      = (inl (AttributeError "chain_from_iterable"), s))
      (scenarios (self s))
  ∧ run.1 = inl (AttributeError "chain_from_iterable")
  ∧ regressions_run run.2 = regressions_run s
  ∧ completed_regressions (self run.2) = 0
  ∧ session_results run.2 = session_results s
  ∧ files run.2 = files s
  ∧ results_shown (screen run.2) = results_shown (screen s)
  ∧ errors_shown (screen run.2) = errors_shown (screen s).
Proof.
  intros Hd Hyear Hsome Hyears run.
  assert (run = (inl (AttributeError "chain_from_iterable"),
                 batch_started (uploaded d s)))
    as Hrun by by apply main_button_raises.
  split_and!.
  - destruct (scenarios (self s)) as [|[name years] rest] eqn:Hsc; [done|].
    rewrite (run_regression_scenarios_raises s d name years rest) by done.
    apply Forall_cons_1 in Hyears as [Hne _].
    by rewrite scenario_error_year.
  - eapply Forall_impl; [exact Hyears|]. intros [name years] Hne.
    rewrite process_scenario_raises, Hd. by rewrite scenario_error_year.
  - by rewrite Hrun.
  - by rewrite Hrun.
  - by rewrite Hrun.
  - by rewrite Hrun.
  - by rewrite Hrun.
  - rewrite Hrun. cbn [snd].
    by rewrite results_shown_started, results_shown_uploaded.
  - rewrite Hrun. cbn [snd].
    by rewrite errors_shown_started, errors_shown_uploaded.
Qed.

Lemma batch_raises_before_any_fit_witness :
  let d := sample_sheet [2001; 2002; 2003]%Z in
  run_regression_scenarios (H := sample_numerics) (loaded d)
  = (inl (AttributeError "chain_from_iterable"), batch_started (loaded d))
  ∧ regressions_run
      (main (H := sample_numerics) (Some d) true (loaded d)).2 = [].
Proof.
  intros d.
  assert ("Year" ∈ columns d) as Hyear.
  { apply (bool_decide_unpack _). vm_compute. reflexivity. }
  assert (scenarios (self (loaded d)) ≠ []) as Hsome by done.
  destruct (batch_raises_before_any_fit (H := sample_numerics)
              d (loaded d) eq_refl Hyear Hsome predefined_years_nonempty)
    as (Hbatch & _ & _ & Hlog & _).
  exact (conj Hbatch Hlog).
Defined.

(** ** C3: the counters *)

(** C3. The run that a press of the button starts never has the total:
    [main] builds a new object, whose total is 0, and calls the batch
    before the variables section, the only place that computes
    [5 * (2 ^ N - 1)]. On a sheet with a Year column that run raises
    AttributeError with the total and the completed count both 0, no
    fit made and no progress reported on the bar it created. The next run computes the total on
    another new object, whose completed count is 0. *)
Theorem total_count_unset_during_run `{Numerics}
  (d : DataFrame) (s : State) :
  "Year" ∈ columns d →
  let N := length (predictor_columns d) in
  let run := main (Some d) true s in
  let rerun := main (Some d) false run.2 in
  run.1 = inl (AttributeError "chain_from_iterable")
  ∧ total_regressions (self run.2) = 0
  ∧ completed_regressions (self run.2) = 0
  ∧ regressions_run run.2 = regressions_run s
  ∧ results_shown (screen run.2) = results_shown (screen s)
  ∧ length (scenarios (self rerun.2)) = 5
  ∧ num_combinations (self rerun.2) = 2 ^ N - 1
  ∧ total_regressions (self rerun.2) = 5 * (2 ^ N - 1)
  ∧ completed_regressions (self rerun.2) = 0
  ∧ regressions_run rerun.2 = regressions_run s.
Proof.
  intros Hyear N run rerun.
  assert (run = (inl (AttributeError "chain_from_iterable"),
                 batch_started (uploaded d s)))
    as Hrun by by apply main_button_raises.
  destruct (main_with_file_run d run.2) as (Hself & Hlog & _).
  fold rerun in Hself, Hlog. fold N in Hself.
  rewrite Hself, Hlog, Hrun. cbn [fst snd self uploaded regressions_run
    scenarios num_combinations total_regressions completed_regressions].
  split_and!; try done.
  by rewrite results_shown_started, results_shown_uploaded.
Qed.

Lemma total_count_unset_during_run_witness :
  let d := sample_sheet (Z_range 2001 2024) in
  let run := main (H := sample_numerics) (Some d) true empty_session in
  let rerun := main (H := sample_numerics) (Some d) false run.2 in
  total_regressions (self run.2) = 0
  ∧ completed_regressions (self run.2) = 0
  ∧ total_regressions (self rerun.2) = 15
  ∧ completed_regressions (self rerun.2) = 0.
Proof.
  intros d.
  assert ("Year" ∈ columns d) as Hyear.
  { apply (bool_decide_unpack _). vm_compute. reflexivity. }
  destruct (total_count_unset_during_run (H := sample_numerics)
              d empty_session Hyear)
    as (_ & Htotal & Hdone & _ & _ & _ & _ & Htotal' & Hdone' & _).
  exact (conj Htotal (conj Hdone (conj Htotal' Hdone'))).
Defined.

(** ** C6: the coefficient table *)

Section coefficient_ranker.
Context `{Numerics}.










Lemma names_of_fmap (names : list string) : names_of (Term <$> names) = names.
Proof.
  induction names as [|name names IH]; [done|].
  unfold names_of in *. cbn. by rewrite IH.
Qed.
















End coefficient_ranker.




(** ** C9: the batch scheduler *)

Section scheduler.
Context `{Numerics}.

Lemma forallb_not_pending fs :
  forallb (fun g => negb (is_pending g)) fs = true →
  Forall (fun f => is_pending f = false) fs.
Proof.
  induction fs as [|f fs IH]; simpl; [constructor|].
  intros [Hf Hfs]%andb_prop. constructor; [|auto].
  by destruct (is_pending f).
Qed.

(** A schedule drives the pool through steps the executor allows. *)
Lemma pool_pick_step i c c' : pool_pick i c = Some c' → pool_step c c'.
Proof.
  destruct c as [fs s]. unfold pool_pick.
  destruct (fs !! i) as [f|] eqn:Hi; [|done].
  destruct (is_running f) eqn:Hrun; cbn [orb].
  - destruct (work f s) as [f' s'] eqn:Hw. intros [= <-].
    by eapply pool_work.
  - destruct (is_pending f) eqn:Hpend; [|done]. cbn [andb].
    destruct (forallb _ (take i fs)) eqn:Hfifo; [|done]. cbn [andb].
    destruct (_ <? max_workers) eqn:Hfree; [|done].
    destruct f as [name years| | | |]; try done.
    destruct (work (Pending name years) s) as [f' s'] eqn:Hw. intros [= <-].
    eapply pool_start; [done| |by apply Nat.ltb_lt|done].
    by apply forallb_not_pending.
Qed.

Lemma run_schedule_run schedule c c' :
  run_schedule schedule c = Some c' → pool_run c c'.
Proof.
  revert c. induction schedule as [|i schedule IH]; intros c; simpl.
  - intros [= <-]. constructor.
  - destruct (pool_pick i c) as [c1|] eqn:Hpick; [|done].
    intros Hrest. eapply pool_run_step; [by eapply pool_pick_step|auto].
Qed.

Lemma pool_run_trans c1 c2 c3 :
  pool_run c1 c2 → pool_run c2 c3 → pool_run c1 c3.
Proof.
  induction 1 as [|c1 c2 c4 Hstep _ IH]; [done|].
  intros Hrun. eapply pool_run_step; [done|auto].
Qed.

(** A task that starts ends at once, by its exception. *)
Lemma work_pending scenario_name years s :
  work (Pending scenario_name years) s
  = (Done (inl (scenario_error (df (self s)) scenario_name years)), s).
Proof. unfold work. by rewrite prepare_scenario_raises. Qed.

Lemma submit_queued sheet scenarios :
  queued_or_raised sheet scenarios (submit scenarios).
Proof.
  unfold queued_or_raised, submit. apply Forall2_fmap_r, Forall_Forall2_diag.
  apply Forall_forall. intros sc _. by left.
Qed.

Lemma queued_not_running sheet scenarios fs :
  queued_or_raised sheet scenarios fs →
  Forall (fun f => is_running f = false) fs.
Proof. induction 1 as [|sc f scs fs [-> | ->] _ IH]; by constructor. Qed.

(** No step of the pool leaves a task running or changes the state. *)
Lemma pool_step_queued scenarios fs s fs' s' :
  queued_or_raised (df (self s)) scenarios fs →
  pool_step (fs, s) (fs', s') →
  s' = s ∧ queued_or_raised (df (self s)) scenarios fs'.
Proof.
  intros Hq Hstep. inversion Hstep as
    [fs0 s0 i name years f1 s1 Hi Hfifo Hfree Hwork
    |fs0 s0 i f f1 s1 Hi Hrunning Hwork]; subst.
  - rewrite work_pending in Hwork. injection Hwork as <- <-.
    split; [done|].
    destruct (Forall2_lookup_r _ _ _ _ _ Hq Hi) as (sc & Hsc & Hf).
    rewrite <- (list_insert_id scenarios i sc Hsc).
    apply Forall2_insert; [done|]. right.
    destruct Hf as [[= -> ->]|[=]]. done.
  - apply queued_not_running in Hq.
    eapply Forall_lookup_1 in Hq; [|exact Hi]. cbn in Hq. congruence.
Qed.

Lemma pool_run_queued scenarios fs s fs' s' :
  queued_or_raised (df (self s)) scenarios fs →
  pool_run (fs, s) (fs', s') →
  s' = s ∧ queued_or_raised (df (self s)) scenarios fs'.
Proof.
  intros Hq Hrun.
  remember (fs, s) as c eqn:Hc. remember (fs', s') as c' eqn:Hc'.
  revert fs s Hq Hc. induction Hrun as [c|c1 [fs2 s2] c3 Hstep _ IH];
    intros fs s Hq ->.
  - by injection Hc' as -> ->.
  - apply (pool_step_queued scenarios) in Hstep as [-> Hq2]; [|done].
    by apply (IH Hc' fs2 s).
Qed.

Lemma no_running_count fs :
  Forall (fun f => is_running f = false) fs →
  length (filter (fun f => is_running f = true) fs) = 0.
Proof.
  induction 1 as [|f fs Hf _ IH]; [done|].
  rewrite filter_cons, decide_False by congruence. done.
Qed.

(** The tasks still queued can be started one after the other. *)
Lemma pool_finishes dones rest s :
  Forall (fun f => is_done f = true) dones →
  Forall (fun f => is_running f = false) rest →
  ∃ fs', pool_run (dones ++ rest, s) (fs', s)
         ∧ Forall (fun f => is_done f = true) fs'.
Proof.
  intros Hdones Hrest. revert dones Hdones.
  induction Hrest as [|f rest Hf Hrest IH]; intros dones Hdones.
  { exists dones. rewrite app_nil_r. split; [constructor|done]. }
  assert (∀ e, ∃ fs', pool_run ((dones ++ [Done e]) ++ rest, s) (fs', s)
                      ∧ Forall (fun f => is_done f = true) fs') as Hnext.
  { intros e. apply IH, Forall_app. split; [done|]. by repeat constructor. }
  destruct f as [name years| | | |outcome]; try done.
  - destruct (Hnext (inl (scenario_error (df (self s)) name years)))
      as (fs' & Hrun & Hall).
    exists fs'. split; [|done]. eapply pool_run_step; [|exact Hrun].
    rewrite <- app_assoc. cbn [app].
    replace (dones ++ Done (inl (scenario_error (df (self s)) name years))
             :: rest)
      with (<[length dones := Done (inl (scenario_error (df (self s))
                                           name years))]>
              (dones ++ Pending name years :: rest))
      by (by rewrite insert_app_r_alt, Nat.sub_diag by lia).
    eapply pool_start.
    + by rewrite lookup_app_r, Nat.sub_diag by lia.
    + rewrite take_app_length. eapply Forall_impl; [exact Hdones|].
      by intros [] ?.
    + rewrite no_running_count; [unfold max_workers; lia|].
      apply Forall_app. split; [|by constructor].
      eapply Forall_impl; [exact Hdones|]. by intros [] ?.
    + apply work_pending.
  - destruct (Hnext outcome) as (fs' & Hrun & Hall).
    exists fs'. split; [|done]. by rewrite <- app_assoc in Hrun.
Qed.

Lemma all_done_raised sheet scenarios fs :
  queued_or_raised sheet scenarios fs →
  Forall (fun f => is_done f = true) fs →
  fs = (fun sc => Done (inl (scenario_error sheet sc.1 sc.2))) <$> scenarios.
Proof.
  induction 1 as [|sc f scs fs [-> | ->] _ IH]; [done| |].
  - by intros [[=] _]%Forall_cons_1.
  - intros [_ Hall]%Forall_cons_1. cbn. f_equal. by apply IH.
Qed.

End scheduler.

(** C9. No list of results is returned. Whatever the interleaving of
    the workers, a task that starts ends at once by the exception of
    its scenario and leaves the shared state as it was, so every
    future is still queued or holds that exception, at the position of
    its scenario in submission order; once all have finished, the
    futures are those of the run in submission order, and gathering
    them raises the exception of the first scenario. On a sheet with a
    Year column that exception is AttributeError, for every scenario
    with years to select. Every execution of the pool can be continued
    until every task has finished. *)
Theorem futures_hold_exceptions `{Numerics}
  (s s' : State) (fs' : list future) :
  pool_run (submit (scenarios (self s)), s) (fs', s') →
  let raised (sc : string * list Z) :=
    scenario_error (df (self s)) sc.1 sc.2 in
  let outcomes := (run_in_turn (scenarios (self s)) s).1 in
  s' = s
  ∧ Forall2
      (fun sc f => f = Pending sc.1 sc.2 ∨ f = Done (inl (raised sc)))
      (scenarios (self s)) fs'
  ∧ (Forall (fun f => is_done f = true) fs' →
       fs' = Done <$> outcomes
       ∧ outcomes = (fun sc => inl (raised sc)) <$> scenarios (self s)
       ∧ gather outcomes
         = match scenarios (self s) with
           | [] => inr []
           | sc :: _ => inl (raised sc)
           end)
  ∧ (∀ d sc, df (self s) = Some d → "Year" ∈ columns d →
       sc ∈ scenarios (self s) → sc.2 ≠ [] →
       raised sc = AttributeError "chain_from_iterable")
  ∧ ∃ fs'', pool_run (fs', s') (fs'', s')
            ∧ Forall (fun f => is_done f = true) fs''.
Proof.
  intros Hrun raised outcomes.
  apply (pool_run_queued (scenarios (self s))) in Hrun as [-> Hq];
    [|apply submit_queued].
  split_and!.
  - done.
  - exact Hq.
  - intros Hdone. unfold outcomes. rewrite run_in_turn_raises. cbn [fst].
    split_and!.
    + rewrite (all_done_raised _ _ _ Hq Hdone).
      by rewrite <- list_fmap_compose.
    + done.
    + by destruct (scenarios (self s)).
  - intros d [name years] Hd Hyear _ Hne. unfold raised. rewrite Hd.
    by apply scenario_error_year.
  - apply (pool_finishes [] fs' s); [constructor|].
    by eapply queued_not_running.
Qed.

Lemma futures_hold_exceptions_witness :
  let s := loaded (sample_sheet (Z_range 2001 2024)) in
  let raised : future := Done (inl (AttributeError "chain_from_iterable")) in
  run_schedule (H := sample_numerics) [0; 1; 2; 3; 4]
    (submit (scenarios (self s)), s)
  = Some (replicate 5 raised, s)
  ∧ gather (run_in_turn (H := sample_numerics) (scenarios (self s)) s).1
    = inl (AttributeError "chain_from_iterable").
Proof.
  intros s raised.
  assert (run_schedule (H := sample_numerics) [0; 1; 2; 3; 4]
            (submit (scenarios (self s)), s)
          = Some (replicate 5 raised, s)) as Hsched.
  { vm_compute. reflexivity. }
  assert (Forall (fun f => is_done f = true) (replicate 5 raised)) as Hdone.
  { by repeat constructor. }
  destruct (futures_hold_exceptions (H := sample_numerics) s s _
              (run_schedule_run _ _ _ Hsched))
    as (_ & _ & Hall & _).
  destruct (Hall Hdone) as (_ & _ & Hgather).
  exact (conj Hsched Hgather).
Defined.


(** * Part IV: further properties of the program *)

(** ** Year selection *)



(** ** The design handed to the library *)

Lemma getitem_at d label i :
  columns d !! i = Some label →
  (∀ k, k < i → columns d !! k ≠ Some label) →
  getitem d label
  = inr ((fun row => default (CFloat nan) (row !! i)) <$> rows d).
Proof.
  intros Hi Hfirst. unfold getitem.
  assert (get_loc d label = inr i) as -> by by apply get_loc_inr.
  done.
Qed.

Lemma getitem_inr d label :
  label ∈ columns d →
  ∃ column, getitem d label = inr column ∧ length column = length (rows d).
Proof.
  intros Hin. unfold getitem.
  destruct (get_loc d label) as [e|i] eqn:Hloc.
  { by apply get_loc_inl in Hloc as [_ ?]. }
  eexists. split; [done|]. by rewrite length_fmap.
Qed.

Lemma getitem_inl d label e :
  getitem d label = inl e ↔ e = KeyError label ∧ label ∉ columns d.
Proof.
  unfold getitem. destruct (get_loc d label) as [e'|i] eqn:Hloc.
  - apply get_loc_inl in Hloc as [-> Hnot]. split; [by intros [= <-]|].
    by intros [-> _].
  - split; [done|]. intros [_ Hnot].
    apply get_loc_inr in Hloc as [Hi _]. destruct Hnot.
    by eapply list_elem_of_lookup_2.
Qed.

Lemma filter_missing_nil d labels :
  Forall (fun label => label ∈ columns d) labels →
  filter (fun label => label ∉ columns d) labels = [].
Proof.
  induction 1 as [|label labels Hin _ IH]; [done|].
  by rewrite filter_cons, decide_False by tauto.
Qed.

Lemma filter_missing_cons d labels :
  ¬ Forall (fun label => label ∈ columns d) labels →
  ∃ label missing,
    filter (fun label => label ∉ columns d) labels = label :: missing.
Proof.
  intros Hnot.
  destruct (filter (fun label => label ∉ columns d) labels)
    as [|label missing] eqn:Hf; [|by eauto].
  destruct Hnot. apply Forall_forall. intros label Hin.
  destruct (decide (label ∈ columns d)) as [|Hmiss]; [done|].
  assert (label ∈ filter (fun label => label ∉ columns d) labels) as Hl
    by by apply list_elem_of_filter.
  rewrite Hf in Hl. by apply elem_of_nil in Hl.
Qed.

Lemma take_columns_at d labels js :
  Forall2 (fun x j => columns d !! j = Some x
                      ∧ ∀ k, k < j → columns d !! k ≠ Some x) labels js →
  take_columns d labels
  = inr ((fun j => (fun row => default (CFloat nan) (row !! j)) <$> rows d)
         <$> js).
Proof.
  induction 1 as [|x j labels js [Hj Hfirst] _ IH]; [done|].
  cbn [take_columns]. by rewrite (getitem_at d x j), IH.
Qed.


Lemma getitems_all d labels :
  Forall (fun label => label ∈ columns d) labels →
  getitems d labels = take_columns d labels.
Proof. intros Hall. unfold getitems. by rewrite filter_missing_nil. Qed.


Lemma getitems_missing d labels :
  ¬ Forall (fun label => label ∈ columns d) labels →
  getitems d labels
  = inl (KeyError_not_in_index labels
           (unique (filter (fun label => label ∉ columns d) labels))).
Proof.
  intros (label & missing & Hf)%filter_missing_cons. unfold getitems.
  by rewrite Hf.
Qed.

Lemma elem_of_unique labels label : label ∈ unique labels ↔ label ∈ labels.
Proof.
  induction labels as [|l ls IH]; [done|].
  cbn [unique]. rewrite !elem_of_cons, list_elem_of_filter, IH.
  destruct (decide (label = l)); tauto.
Qed.

Lemma NoDup_unique labels : NoDup (unique labels).
Proof.
  induction labels as [|l ls IH]; [constructor|].
  cbn [unique]. apply NoDup_cons. split; [|by apply NoDup_filter].
  by intros [? _]%list_elem_of_filter.
Qed.

Lemma unique_sublist labels : unique labels `sublist_of` labels.
Proof.
  induction labels as [|l ls IH]; [done|].
  cbn [unique]. apply sublist_skip. etrans; [apply sublist_filter|done].
Qed.

(** X2. When the response and the predictors are columns of the frame,
    [run_single_regression] is one call of the library fit. Its
    response vector has one entry per row of the frame: the row's cell
    under the first column labelled with the response, a float as it
    is and an integer rounded once to the nearest double (NaN for a
    row too short). Its design has, under the names [x_vars] and in
    their order, one such column per predictor. *)
Theorem run_single_regression_design `{Numerics}
  (d : DataFrame) (y_var : string) (x_vars : list string)
  (i : nat) (js : list nat) :
  columns d !! i = Some y_var →
  (∀ k, k < i → columns d !! k ≠ Some y_var) →
  Forall2 (fun x j => columns d !! j = Some x
                      ∧ ∀ k, k < j → columns d !! k ≠ Some x) x_vars js →
  let to_float c :=
    match c with CInt z => float_of_Z z | CFloat x => x end in
  let column j :=
    (fun row : list cell => to_float (default (CFloat nan) (row !! j)))
    <$> rows d in
  run_single_regression d y_var x_vars
  = OLS_fit (column i) x_vars (column <$> js)
  ∧ length (column i) = length (rows d)
  ∧ length (column <$> js) = length x_vars
  ∧ Forall (fun col => length col = length (rows d)) (column <$> js).
Proof.
  intros Hi Hfirst Hjs to_float column. split_and!.
  - unfold run_single_regression.
    rewrite (getitem_at d y_var i) by done.
    assert (Forall (fun x => x ∈ columns d) x_vars) as Hall.
    { eapply Forall2_Forall_l; [exact Hjs|].
      apply Forall_forall. intros j _ x [Hx _].
      by eapply list_elem_of_lookup_2. }
    rewrite getitems_all, (take_columns_at d x_vars js) by done.
    rewrite <- !list_fmap_compose. f_equal.
    apply list_fmap_ext. intros _ j _. cbn. by rewrite <- list_fmap_compose.
  - unfold column. by rewrite length_fmap.
  - rewrite length_fmap. symmetry. by eapply Forall2_length.
  - apply Forall_fmap, Forall_forall. intros j _. cbn. unfold column.
    by rewrite length_fmap.
Qed.

Lemma run_single_regression_design_witness :
  run_single_regression (H := sample_numerics)
    (sample_sheet [2001; 2002]%Z) "Y" ["B"; "A"]
  = OLS_fit (Numerics := sample_numerics) [1.5; 1.5]%float ["B"; "A"]
      [[0.25; 0.25]; [1; 2]]%float.
Proof.
  destruct (run_single_regression_design (H := sample_numerics)
              (sample_sheet [2001; 2002]%Z) "Y" ["B"; "A"] 1 [3; 2])
    as (Hrun & _).
  - reflexivity.
  - intros k Hk. destruct k as [|k]; [discriminate|lia].
  - repeat constructor.
    + intros k Hk. do 3 (destruct k as [|k]; [discriminate|]). lia.
    + intros k Hk. do 2 (destruct k as [|k]; [discriminate|]). lia.
  - exact Hrun.
Defined.

(** X3. When the response or a predictor is not a column of the frame,
    [run_single_regression] raises KeyError, whatever the library is:
    the fit is not reached. A missing response is named by the
    KeyError of the response lookup. With the response present, the
    predictor lookup raises one KeyError for the whole request, which
    names the requested labels that are not columns, each once, in the
    order of the request. *)
Theorem run_single_regression_missing_column
  (d : DataFrame) (y_var : string) (x_vars : list string) :
  ¬ (y_var ∈ columns d ∧ Forall (fun x => x ∈ columns d) x_vars) →
  let missing := unique (filter (fun x => x ∉ columns d) x_vars) in
  (∀ library : Numerics,
     run_single_regression (H := library) d y_var x_vars
     = inl (if decide (y_var ∈ columns d)
            then KeyError_not_in_index x_vars missing
            else KeyError y_var))
  ∧ (y_var ∈ columns d → missing ≠ [])
  ∧ (∀ label, label ∈ missing ↔ label ∈ x_vars ∧ label ∉ columns d)
  ∧ NoDup missing
  ∧ missing `sublist_of` x_vars.
Proof.
  intros Hnot missing. split_and!.
  - intros library. unfold run_single_regression. case_decide as Hy.
    + destruct (getitem_inr d y_var Hy) as (Y & -> & _).
      rewrite getitems_missing; [done|]. tauto.
    + assert (getitem d y_var = inl (KeyError y_var)) as ->
        by by apply getitem_inl.
      done.
  - intros Hy. unfold missing.
    destruct (filter_missing_cons d x_vars) as (label & rest & ->); [tauto|].
    done.
  - intros label. unfold missing.
    by rewrite elem_of_unique, list_elem_of_filter, (comm and).
  - apply NoDup_unique.
  - unfold missing. etrans; [apply unique_sublist|apply sublist_filter].
Qed.

Lemma run_single_regression_missing_column_witness :
  run_single_regression (H := sample_numerics) (sample_sheet [2001%Z])
    "Y" ["A"; "D"; "C"; "B"; "D"]
  = inl (KeyError_not_in_index ["A"; "D"; "C"; "B"; "D"] ["D"; "C"]).
Proof.
  destruct (run_single_regression_missing_column (sample_sheet [2001%Z])
              "Y" ["A"; "D"; "C"; "B"; "D"])
    as (Hrun & _).
  - intros [_ Hall]. apply Forall_cons in Hall as [_ Hall].
    apply Forall_cons in Hall as [Hc _]. revert Hc.
    apply (bool_decide_unpack _). vm_compute. reflexivity.
  - exact (Hrun sample_numerics).
Defined.

(** ** Scenario names *)

Lemma dict_get_inl {V} (d : list (string * V)) key :
  key ∉ d.*1 → dict_get d key = inl (KeyError key).
Proof.
  induction d as [|[k v] d IH]; simpl; [done|].
  rewrite not_elem_of_cons. intros [Hne Hnot].
  rewrite decide_False by done. auto.
Qed.

(** X11. A scenario whose name is not a predefined one and whose year
    selection is empty raises KeyError for its name before it touches
    the sheet: nothing is fitted, counted or shown. With a non-empty
    selection the dictionary is not consulted. *)
Theorem unknown_scenario_needs_years `{Numerics}
  (scenario_name : string) (s : State) :
  scenario_name ∉ predefined_years.*1 →
  process_scenario scenario_name [] s = (inl (KeyError scenario_name), s)
  ∧ work (Pending scenario_name []) s
    = (Done (inl (KeyError scenario_name)), s)
  ∧ ∀ years, years ≠ [] → resolve_years scenario_name years = inr years.
Proof.
  intros Hnot.
  assert (scenario_error (df (self s)) scenario_name []
          = KeyError scenario_name) as Herr.
  { unfold scenario_error, resolve_years. by rewrite dict_get_inl. }
  split_and!.
  - by rewrite process_scenario_raises, Herr.
  - by rewrite work_pending, Herr.
  - by intros [|year years].
Qed.

Lemma unknown_scenario_needs_years_witness :
  process_scenario (H := sample_numerics) "2001-2020" []
    (loaded (sample_sheet (Z_range 2001 2024)))
  = (inl (KeyError "2001-2020"), loaded (sample_sheet (Z_range 2001 2024))).
Proof.
  apply (unknown_scenario_needs_years (H := sample_numerics)).
  apply (bool_decide_unpack _). vm_compute. reflexivity.
Defined.

(** ** The single regression over all columns *)




(** ** The scenario table *)

Lemma elem_of_Z_range lo hi z : z ∈ Z_range lo hi ↔ (lo ≤ z < hi)%Z.
Proof.
  unfold Z_range. rewrite list_elem_of_fmap. split.
  - intros (i & -> & Hi%elem_of_seq). lia.
  - intros Hz. exists (Z.to_nat (z - lo)). split; [lia|].
    apply elem_of_seq. lia.
Qed.

Lemma NoDup_Z_range lo hi : NoDup (Z_range lo hi).
Proof.
  unfold Z_range. apply NoDup_fmap_2; [|apply NoDup_seq].
  intros i j. lia.
Qed.

Lemma Z_range_lookup lo hi i :
  i < Z.to_nat (hi - lo) → Z_range lo hi !! i = Some (lo + Z.of_nat i)%Z.
Proof.
  intros Hi. unfold Z_range. rewrite list_lookup_fmap, lookup_seq_lt by done.
  done.
Qed.

Lemma marks_count (years all : list Z) :
  length (filter (fun mark : string => mark = "•")
            ((fun year => if decide (year ∈ years) then "•" else "") <$> all))
  = length (filter (fun year => year ∈ years) all).
Proof.
  induction all as [|year all IH]; [done|].
  rewrite fmap_cons, !filter_cons.
  destruct (decide (year ∈ years)).
  - rewrite decide_True by done. simpl. by rewrite IH.
  - rewrite decide_False by done. done.
Qed.

(** X14. The column [display_scenarios] builds for a scenario has one
    cell per year from 2001 to 2023, in order; the cell of a year is
    the bullet exactly when the year is among the scenario's years and
    the empty string otherwise; years outside 2001-2023 leave no trace;
    and for distinct years the number of bullets is the number of the
    scenario's years within 2001-2023. *)
Theorem scenario_marks_spec (years : list Z) :
  let in_table := fun year : Z => (2001 ≤ year ≤ 2023)%Z in
  length (scenario_marks years) = 23
  ∧ (∀ year, in_table year →
       scenario_marks years !! Z.to_nat (year - 2001)
       = Some (if decide (year ∈ years) then "•" else ""))
  ∧ scenario_marks years = scenario_marks (filter in_table years)
  ∧ (NoDup years →
     length (filter (fun mark : string => mark = "•") (scenario_marks years))
     = length (filter in_table years)).
Proof.
  intros in_table. unfold scenario_marks, all_years. split_and!.
  - by rewrite length_fmap.
  - intros year [Hlo Hhi]. rewrite list_lookup_fmap.
    rewrite Z_range_lookup by (simpl; lia). cbn [fmap option_fmap option_map].
    by replace (2001 + Z.of_nat (Z.to_nat (year - 2001)))%Z with year by lia.
  - apply list_fmap_ext. intros _ year Hyear%list_elem_of_lookup_2.
    apply elem_of_Z_range in Hyear.
    destruct (decide (year ∈ years)) as [Hin|Hin].
    + rewrite decide_True; [done|]. apply list_elem_of_filter.
      split; [unfold in_table; lia|done].
    + rewrite decide_False; [done|].
      by intros [_ ?]%list_elem_of_filter.
  - intros Hnd. rewrite marks_count. apply Permutation_length.
    apply NoDup_Permutation.
    + apply NoDup_filter, NoDup_Z_range.
    + by apply NoDup_filter.
    + intros year. rewrite !list_elem_of_filter, elem_of_Z_range.
      unfold in_table. intuition lia.
Qed.

Lemma scenario_marks_spec_witness :
  length (filter (fun mark : string => mark = "•")
            (scenario_marks [2024; 2003; 1999; 2001]%Z))
  = 2.
Proof.
  destruct (scenario_marks_spec [2024; 2003; 1999; 2001]%Z)
    as (_ & _ & _ & Hcount).
  rewrite Hcount; [reflexivity|].
  apply (bool_decide_unpack _). vm_compute. reflexivity.
Defined.

(** ** The pages without a batch *)

(** X15. [show_variable_selection] always returns. Without a sheet it
    shows the upload warning and sets nothing. With a sheet of N
    predictor columns it stores the predictor names, 2^N - 1 as the
    number of combinations and five times that as the total, whatever
    the number of scenarios, leaves the completed count alone, and
    shows the two counts, a heading and one line per predictor, in
    sheet order. *)
Theorem variable_selection_counts (s : State) :
  let run := show_variable_selection s in
  run.1 = inr tt
  ∧ match df (self s) with
    | None =>
        self run.2 = self s
        ∧ screen run.2
          = screen s ++ [st_warning "Please upload an Excel file first."]
    | Some d =>
        let N := length (predictor_columns d) in
        df (self run.2) = Some d
        ∧ variables (self run.2) = predictor_columns d
        ∧ scenarios (self run.2) = scenarios (self s)
        ∧ num_combinations (self run.2) = 2 ^ N - 1
        ∧ total_regressions (self run.2) = 5 * (2 ^ N - 1)
        ∧ completed_regressions (self run.2) = completed_regressions (self s)
        ∧ screen run.2
          = screen s
            ++ [st_subheader (str_nat N +:+ " variables found.");
                st_subheader
                  ("Regression will create " +:+ str_nat (2 ^ N - 1)
                   +:+ " variable combinations (Total Regressions: "
                   +:+ str_nat (5 * (2 ^ N - 1)) +:+ ").");
                st_write "### Variables:"]
            ++ ((fun var => st_write ("- " +:+ var)) <$> predictor_columns d)
    end.
Proof.
  intros run. unfold run.
  destruct (df (self s)) as [d|] eqn:Hd.
  - pose proof (show_variable_selection_self s d Hd) as Hself.
    cbn zeta in Hself.
    assert (sum_list ((fun i => length (combinations (predictor_columns d) i))
                      <$> range 1 (length (predictor_columns d) + 1))
            = 2 ^ length (predictor_columns d) - 1) as Hsum.
    { apply combinations_count. }
    rewrite Hsum in Hself.
    remember (show_variable_selection s) as r eqn:Hrun.
    unfold show_variable_selection in Hrun.
    erewrite bind_inr in Hrun by reflexivity. rewrite Hd in Hrun.
    do 4 erewrite bind_inr in Hrun by reflexivity. rewrite Hsum in Hrun.
    match type of Hrun with _ = for_each ?body ?xs ?s5 =>
      destruct (for_each_show (fun var => st_write ("- " +:+ var)) xs s5)
        as [Hr Hscr]
    end.
    rewrite <- Hrun in Hr, Hscr. split; [done|]. cbv beta iota zeta.
    rewrite Hself, Hscr. cbn [df variables scenarios num_combinations
      total_regressions completed_regressions screen show modify snd].
    rewrite <- !app_assoc. done.
  - unfold show_variable_selection. erewrite bind_inr by reflexivity.
    rewrite Hd. done.
Qed.

(** X16. A script run without an uploaded file fits nothing and writes
    nothing, whether or not the button is pressed: the application
    object is the new, empty one, the upload warning is shown once by
    the variables section and once more by the batch when the button is
    pressed, and the call log, the files, the links and the stored
    results are as before the run. With no stored results the run
    returns, having shown only its headings, the scenario table and
    the warnings. *)
Theorem no_file_run `{Numerics} (button : bool) (s : State) :
  let run := main None button s in
  let please := "Please upload an Excel file first." in
  warnings_shown (screen run.2)
  = warnings_shown (screen s) ++ (if button then [please; please] else [please])
  ∧ self run.2 = init
  ∧ regressions_run run.2 = regressions_run s
  ∧ files run.2 = files s
  ∧ download_links run.2 = download_links s
  ∧ session_results run.2 = session_results s
  ∧ (session_results s = None →
     run.1 = inr tt
     ∧ screen run.2
       = screen s
         ++ [st_title "SG2024 Regression Analysis Crazy-Fast Tool";
             st_write "### Upload Xlsx Source File:"]
         ++ (if button then [st_warning please] else [])
         ++ [st_write "### Existing Scenarios:"; st_table;
             st_write "### Variables:"; st_warning please]).
Proof.
  intros run please. unfold run. rewrite main_no_file.
  destruct (session_results s) as [all_results|] eqn:Hres.
  - match goal with |- context [display_results_page ?s9] =>
      pose proof (display_results_page_keeps s9) as Hpage;
      destruct (display_results_page s9) as [r s10]
    end.
    cbn [fst snd self screen regressions_run files download_links
         session_results] in *.
    destruct Hpage as (-> & -> & -> & -> & -> & ->).
    unfold warnings_shown. rewrite !omap_app.
    split_and!; try done. by destruct button.
  - cbv [mret M_ret]. cbn [fst snd self screen regressions_run files
      download_links session_results].
    unfold warnings_shown. rewrite !omap_app.
    split_and!; try done. by destruct button.
Qed.

Lemma no_file_run_witness :
  let run := main (H := sample_numerics) None true empty_session in
  run.1 = inr tt
  ∧ screen run.2
    = [st_title "SG2024 Regression Analysis Crazy-Fast Tool";
       st_write "### Upload Xlsx Source File:";
       st_warning "Please upload an Excel file first.";
       st_write "### Existing Scenarios:"; st_table;
       st_write "### Variables:";
       st_warning "Please upload an Excel file first."].
Proof.
  intros run.
  destruct (no_file_run (H := sample_numerics) true empty_session)
    as (_ & _ & _ & _ & _ & _ & Hrun).
  apply Hrun. reflexivity.
Defined.

(** X19. A script run with an uploaded sheet and the button not
    pressed fits nothing and writes nothing: the new application
    object holds the sheet, its predictor names, the five predefined
    scenarios, 2^N - 1 combinations, a total of 5 x (2^N - 1) and a
    completed count of 0; the call log, the files, the links and the
    stored results are as before, and no error message is shown. *)
Theorem upload_without_button `{Numerics} (d : DataFrame) (s : State) :
  let run := main (Some d) false s in
  let N := length (predictor_columns d) in
  self run.2
  = {| df := Some d; variables := predictor_columns d;
       scenarios := predefined_years;
       num_combinations := 2 ^ N - 1;
       total_regressions := 5 * (2 ^ N - 1);
       completed_regressions := 0 |}
  ∧ regressions_run run.2 = regressions_run s
  ∧ files run.2 = files s
  ∧ download_links run.2 = download_links s
  ∧ session_results run.2 = session_results s
  ∧ errors_shown (screen run.2) = errors_shown (screen s).
Proof. apply main_with_file_run. Qed.

(** ** The session over many runs *)

Lemma show_view e s :
  results_shown [e] = [] → session_view (show e s).2 = session_view s.
Proof.
  intros He. unfold session_view. cbn. by rewrite results_shown_snoc, He,
    app_nil_r.
Qed.

Lemma show_variable_selection_view s :
  session_view (show_variable_selection s).2 = session_view s.
Proof.
  unfold show_variable_selection.
  apply keeps_bind; [done|]. intros app sa.
  destruct (df app) as [d|]; [|by apply show_view].
  apply keeps_bind; [done|]. intros _ sb.
  repeat (apply keeps_bind; [intros; by apply show_view|intros _ ?]).
  apply keeps_for_each. intros. by apply show_view.
Qed.

Lemma display_results_page_view `{Numerics} s :
  session_view (display_results_page s).2 = session_view s.
Proof.
  destruct (session_results s) as [all_results|] eqn:Hres.
  - destruct (display_results_page_keeps s) as (_ & _ & _ & _ & _ & Hkept).
    unfold session_view. by rewrite Hkept, Hres.
  - unfold display_results_page. erewrite bind_inr by reflexivity.
    rewrite Hres. by apply show_view.
Qed.

(** The script from the variables section on. *)
Lemma variables_section_view `{Numerics} s :
  session_view
    ((show_variable_selection;;
      s' ← (fun s' => (inr s', s'));
      match session_results s' with
      | Some _ => display_results_page
      | None => mret tt
      end) s).2
  = session_view s.
Proof.
  apply keeps_bind; [apply show_variable_selection_view|]. intros _ sa.
  apply keeps_bind; [done|]. intros sb sc.
  destruct (session_results sb); [apply display_results_page_view|done].
Qed.

(** A script run leaves of the session what it found, with the
    completed count of its new application object. *)
Lemma main_session_view `{Numerics} file button s :
  session_view (main file button s).2
  = session_view (with_self (fun _ => init) s).
Proof.
  assert (∀ d, session_view (uploaded d s)
               = session_view (with_self (fun _ => init) s)) as Hup.
  { intros d. unfold session_view. cbn [session_results uploaded with_self].
    destruct (session_results s); [done|].
    by rewrite results_shown_uploaded. }
  destruct file as [d|].
  - destruct button.
    + destruct (decide ("Year" ∈ columns d)) as [Hyear|Hyear].
      * rewrite main_button_raises by done. cbn [snd]. rewrite <- (Hup d).
        unfold session_view. cbn [session_results batch_started].
        destruct (session_results (uploaded d s)); [done|].
        by rewrite results_shown_started.
      * rewrite main_button.
        erewrite bind_inr
          by (apply (run_regression_scenarios_no_year _ d);
              [reflexivity|done]).
        rewrite <- (Hup d).
        rewrite <- (show_view
          (st_error "The 'Year' column is missing from the uploaded file.")
          (uploaded d s)) by done.
        repeat (apply keeps_bind; [intros; by apply show_view|intros _ ?]).
        apply variables_section_view.
    + rewrite main_with_file, variables_section_view.
      unfold session_view. cbn [session_results with_self].
      destruct (session_results s); [done|].
      cbn [self completed_regressions download_links files regressions_run
           screen init].
      by rewrite results_shown_snoc_list.
  - rewrite main_no_file.
    match goal with |- session_view (_ ?s9).2 = _ =>
      assert (session_view s9 = session_view (with_self (fun _ => init) s))
        as <-
    end.
    { unfold session_view. cbn [session_results with_self].
      destruct (session_results s); [done|].
      cbn [self completed_regressions download_links files regressions_run
           screen init].
      rewrite results_shown_snoc_list; [done|]. by destruct button. }
    cbn [session_results].
    destruct (session_results s); [apply display_results_page_view|done].
Qed.

(** X20. A session never gets to store results. From a session without
    stored results, after any sequence of script runs, whatever file
    and button each run has, no results are stored, the download links
    and the files are as at the start, no regression has been run, and
    the results page and the progress bar have shown nothing new; after
    the last run the completed count is 0. *)
Theorem session_never_stores_results `{Numerics}
  (runs : list (option DataFrame * bool)) (s : State) :
  session_results s = None →
  let s' := script_runs runs s in
  session_results s' = None
  ∧ download_links s' = download_links s
  ∧ files s' = files s
  ∧ regressions_run s' = regressions_run s
  ∧ results_shown (screen s') = results_shown (screen s)
  ∧ (runs ≠ [] → completed_regressions (self s') = 0).
Proof.
  intros Hres. induction runs as [|[file button] runs IH] using rev_ind.
  { by cbn. }
  cbv zeta in *. unfold script_runs in *. rewrite foldl_app. cbn [foldl fst snd].
  set (s1 := foldl (fun s run => (main run.1 run.2 s).2) s runs) in *.
  destruct IH as (Hres1 & Hlinks & Hfiles & Hlog & Hshown & _).
  pose proof (main_session_view file button s1) as Hview.
  unfold session_view in Hview.
  cbn [session_results with_self self completed_regressions init
       download_links files regressions_run screen] in Hview.
  rewrite Hres1 in Hview.
  destruct (session_results (main file button s1).2); [done|].
  injection Hview as Hdone -> -> -> ->. by split_and!.
Qed.

Lemma session_never_stores_results_witness :
  let sheet := sample_sheet (Z_range 2001 2024) in
  let s' :=
    script_runs (H := sample_numerics)
      [(Some sheet, true); (Some sheet, false); (None, true);
       (Some year_third_sheet, true)] empty_session in
  session_results s' = None
  ∧ files s' = ∅
  ∧ regressions_run s' = []
  ∧ results_shown (screen s') = [].
Proof.
  intros sheet.
  destruct (session_never_stores_results (H := sample_numerics)
              [(Some sheet, true); (Some sheet, false); (None, true);
               (Some year_third_sheet, true)] empty_session eq_refl)
    as (Hres & _ & Hfiles & Hlog & Hshown & _).
  exact (conj Hres (conj Hfiles (conj Hlog Hshown))).
Defined.
